(** * ai_job_crew: the schema contracts, the two tools and the sequential crew

    A shallow embedding of [ai_job_crew.py].  The program is mostly
    declarations: pydantic models that fix the shape of each task's output,
    two tools that forward to the search and scraping providers, and a crew
    of four tasks run one after the other.  The models are embedded as data
    (field by field, as the classes list them) together with the validation
    pydantic runs over them; the tools as functions in a small state and
    error monad over the providers; the crew as a list of task records.

    How a crew runs its tasks is crewai's business and not in the program's
    sources: the run of a crew is modelled from the specification, and the
    definitions that do so say it. *)

From Stdlib Require Import ZArith Ascii String.
From stdpp Require Import base option list sorting strings gmap.

Set Warnings "-register-all".
Local Open Scope string_scope.
Local Open Scope list_scope.

(** ** Raw values

    What [json.loads] gives for a piece of JSON text: [None], [bool], [int],
    [float], [str], [list] or [dict].  A float is kept as the literal it was
    written as, [m * 10 ^ e].  A [dict] keeps its members in insertion order,
    and a key is read at its first member. *)

Inductive json : Type :=
| JNull
| JBool (b : bool)
| JInt (z : Z)
| JFloat (m e : Z)
| JStr (s : string)
| JList (items : list json)
| JDict (members : list (string * json)).

Fixpoint dict_get (key : string) (members : list (string * json)) : option json :=
  match members with
  | [] => None
  | (k, v) :: rest => if String.eqb k key then Some v else dict_get key rest
  end.

Definition has_key (key : string) (raw : json) : bool :=
  match raw with
  | JDict members => bool_decide (is_Some (dict_get key members))
  | _ => false
  end.

(** ** Model instances

    A validated value: what a field of a pydantic model instance holds. *)

Inductive instance : Type :=
| VNone
| VStr (s : string)
| VInt (z : Z)
| VList (items : list instance)
| VModel (cls : string) (attrs : list (string * instance)).

(** [model_dump()]: the instance as plain Python data again. *)
Fixpoint model_dump (v : instance) : json :=
  match v with
  | VNone => JNull
  | VStr s => JStr s
  | VInt z => JInt z
  | VList items => JList (map model_dump items)
  | VModel _ attrs => JDict (map (fun kv => (fst kv, model_dump (snd kv))) attrs)
  end.

(** The attributes of an instance as [model_dump] gives them. *)
Definition dump_attrs (attrs : list (string * instance)) : list (string * json) :=
  map (fun kv => (fst kv, model_dump (snd kv))) attrs.

(** ** Validation errors *)

Variant error_type : Type :=
| missing | string_type | int_type | list_type | model_type | too_short | too_long.

Variant loc_item : Type :=
| at_field (name : string)
| at_index (i : nat).

(** One violated constraint and where it was found.  pydantic gathers every
    violation in one [ValidationError]; the run only depends on whether there
    is one. *)
Record ErrorDetails : Type := mkError {
  loc : list loc_item;
  type : error_type
}.

Inductive validation (A : Type) : Type :=
| Valid (a : A)
| Invalid (e : ErrorDetails).
Arguments Valid {A} a.
Arguments Invalid {A} e.

Definition is_valid {A} (r : validation A) : bool :=
  match r with Valid _ => true | Invalid _ => false end.

Definition vbind {A B} (r : validation A) (k : A -> validation B) : validation B :=
  match r with
  | Valid a => k a
  | Invalid e => Invalid e
  end.

Definition vmap {A B} (f : A -> B) (r : validation A) : validation B :=
  vbind r (fun a => Valid (f a)).

(** Prefix the location of an error with the place it was found under. *)
Definition under {A} (i : loc_item) (r : validation A) : validation A :=
  match r with
  | Valid a => Valid a
  | Invalid e => Invalid (mkError (i :: loc e) (type e))
  end.

Notation "x <~ r ;; k" := (vbind r (fun x => k))
  (at level 100, r at next level, right associativity).

(** ** Field annotations

    [Field_ name annotation default min_items max_items]: one line of a model
    class.  [default = None] is a required field ([...] or no default). *)

Inductive annotation : Type :=
| t_str
| t_int
| t_List (item : annotation)
| t_Model (cls : string) (fields : list field)
with field : Type :=
| Field_ (name : string) (ann : annotation) (default : option instance)
         (min_items max_items : option nat).

Definition field_name (f : field) : string :=
  match f with Field_ name _ _ _ _ => name end.

Definition field_default (f : field) : option instance :=
  match f with Field_ _ _ default _ _ => default end.

Definition is_required (f : field) : bool :=
  match field_default f with None => true | Some _ => false end.

Definition field_ann (f : field) : annotation :=
  match f with Field_ _ ann _ _ _ => ann end.

Definition fields_of (t : annotation) : list field :=
  match t with t_Model _ fields => fields | _ => [] end.

Definition required_fields (t : annotation) : list string :=
  map field_name (List.filter is_required (fields_of t)).

Definition optional_fields (t : annotation) : list string :=
  map field_name (List.filter (fun f => negb (is_required f)) (fields_of t)).

(** [name: ann] and [name: ann = default]. *)
Definition required (name : string) (ann : annotation) : field :=
  Field_ name ann None None None.
Definition defaulted (name : string) (ann : annotation) (d : instance) : field :=
  Field_ name ann (Some d) None None.

(** The item-count constraints of [Field(..., min_items=, max_items=)]. *)
Definition fewer_than (min_items : option nat) (n : nat) : bool :=
  match min_items with Some m => (n <? m)%nat | None => false end.

Definition more_than (max_items : option nat) (n : nat) : bool :=
  match max_items with Some m => (m <? n)%nat | None => false end.

Definition check_items (min_items max_items : option nat) (v : instance)
  : validation instance :=
  match v with
  | VList items =>
      if fewer_than min_items (length items) then Invalid (mkError [] too_short)
      else if more_than max_items (length items) then Invalid (mkError [] too_long)
      else Valid v
  | _ => Valid v
  end.

(** The items of a list, each at its index. *)
Fixpoint validate_items (f : json -> validation instance) (i : nat) (items : list json)
  : validation (list instance) :=
  match items with
  | [] => Valid []
  | x :: rest =>
      v <~ under (at_index i) (f x) ;;
      vs <~ validate_items f (S i) rest ;;
      Valid (v :: vs)
  end.

(** ** Induction over annotations

    An annotation holds its fields in a list, so the induction hypothesis of
    a model is a [Forall] over its fields. *)
Section annotation_induction.

Variable P : annotation -> Prop.
Hypothesis Pstr : P t_str.
Hypothesis Pint : P t_int.
Hypothesis PList : forall item, P item -> P (t_List item).
Hypothesis PModel :
  forall cls fields, Forall (fun f => P (field_ann f)) fields -> P (t_Model cls fields).

Fixpoint annotation_induction (t : annotation) : P t :=
  match t with
  | t_str => Pstr
  | t_int => Pint
  | t_List item => PList item (annotation_induction item)
  | t_Model cls fields =>
      PModel cls fields
        ((fix each (fs : list field) : Forall (fun f => P (field_ann f)) fs :=
            match fs with
            | [] => @List.Forall_nil field (fun f => P (field_ann f))
            | f :: rest =>
                @List.Forall_cons field (fun f => P (field_ann f)) f rest
                  (match f return P (field_ann f) with
                   | Field_ _ ann _ _ _ => annotation_induction ann
                   end)
                  (each rest)
            end) fields)
  end.

End annotation_induction.

(** A model is plain when all its fields are required and named apart, and
    so for the models inside it. *)
Fixpoint plain (t : annotation) : bool :=
  match t with
  | t_str | t_int => true
  | t_List item => plain item
  | t_Model _ fields =>
      bool_decide (NoDup (map field_name fields))
      && forallb (fun f => is_required f && plain (field_ann f)) fields
  end.

(** ** The models of the program

    Each class of the program, field by field.  [Field(..., min_items=,
    max_items=)] gives a required field its bounds ([title=] only labels the
    schema); [salary: str = None] is the one field with a default. *)

Definition NUM_QUERIES : nat := 10.

Definition SuggestedSearchQueries : annotation :=
  t_Model "SuggestedSearchQueries"
    [ Field_ "queries" (t_List t_str) None (Some 1) (Some NUM_QUERIES) ].

Definition SingleSearchResult : annotation :=
  t_Model "SingleSearchResult"
    [ required "title" t_str;
      required "url" t_str;
      required "content" t_str;
      required "search_query" t_str ].

Definition AllSearchResults : annotation :=
  t_Model "AllSearchResults"
    [ Field_ "results" (t_List SingleSearchResult) None (Some 20) None ].

Definition JobSpec : annotation :=
  t_Model "JobSpec"
    [ required "specification_name" t_str;
      required "specification_value" t_str ].

Definition SingleExtractedJob : annotation :=
  t_Model "SingleExtractedJob"
    [ required "page_url" t_str;
      required "job_title" t_str;
      required "company_name" t_str;
      required "location" t_str;
      required "job_posting_url" t_str;
      required "job_posting_date" t_str;
      defaulted "salary" t_str VNone;
      required "job_specs" (t_List JobSpec);
      required "agent_recommendation_rank" t_int;
      required "agent_recommendation_notes" (t_List t_str) ].

Definition AllExtractedJobs : annotation :=
  t_Model "AllExtractedJobs"
    [ required "jobs" (t_List SingleExtractedJob) ].

(** ** Output locations *)

(** [os.path.join] of two components, POSIX. *)
Definition starts_with_slash (s : string) : bool :=
  match s with String "/"%char _ => true | _ => false end.

Fixpoint ends_with_slash (s : string) : bool :=
  match s with
  | EmptyString => false
  | String c EmptyString => Ascii.eqb c "/"%char
  | String _ rest => ends_with_slash rest
  end.

Definition os_path_join (a b : string) : string :=
  if starts_with_slash b then b
  else if String.eqb a "" || ends_with_slash a then a +:+ b
  else a +:+ "/" +:+ b.

Definition OUTPUT_DIR : string := "./ai-agent-output".

(** ** What the providers and the language model exchange with the program *)

(** A Python exception, by its message. *)
Variant exception : Type := Exception (message : string).

(** One reasoning step of an agent: it either gives its final answer or asks
    for a tool by name with one argument and goes on from what the tool
    returned.  The tree is finite: an agent gives up after a bounded number
    of iterations. *)
Inductive reasoning : Type :=
| FinalAnswer (raw : json)
| UseTool (tool : string) (arg : string) (k : json -> reasoning).

(** What is put before the language model when a task starts. *)
Record Request : Type := mkRequest {
  req_role : string;
  req_goal : string;
  req_backstory : string;
  req_description : string;
  req_expected_output : string;
  req_inputs : list (string * json);
  req_context : list json;
  req_tools : list string
}.

(** What a run can fail on: an answer that does not validate, or a provider
    or the language model raising. *)
Variant PipelineError : Type :=
| ValidationError (e : ErrorDetails)
| CollaboratorError (x : exception).

Variant RunState : Type :=
| NOT_STARTED
| RUNNING (stage : nat)
| COMPLETED
| FAILED (stage : nat) (e : PipelineError).

(** What happens during a run, in the order it happens. *)
Variant event : Type :=
| Invoked (stage : nat) (request : Request)
| ToolCalled (stage : nat) (tool arg : string)
| ToolRaised (stage : nat) (tool : string) (x : exception)
| ModelRaised (stage : nat) (x : exception)
| Answered (stage : nat) (raw : json)
| Accepted (stage : nat) (artifact : json)
| Written (stage : nat) (path : string) (content : json).

Variant Process : Type := sequential.

(** ** The parameters of a run *)

(** The [inputs] of [__main__]. *)
Definition main_inputs : list (string * json) :=
  [ ("jobs_titles", JStr "AI/ML Engineer");
    ("country_name", JStr "Egypt");
    ("no_keywords", JInt (Z.of_nat NUM_QUERIES));
    ("language", JStr "English") ].

Definition is_str (v : json) : bool :=
  match v with JStr _ => true | _ => false end.

Definition is_str_list (v : json) : bool :=
  match v with JList items => forallb is_str items | _ => false end.

Definition is_budget (cap : nat) (v : json) : bool :=
  match v with
  | JInt z => (0 <? z)%Z && (z <=? Z.of_nat cap)%Z
  | _ => false
  end.

Definition holds (check : json -> bool) (key : string) (inputs : list (string * json))
  : bool :=
  match dict_get key inputs with Some v => check v | None => false end.

(** The bundle in the words of the specification: the titles a sequence of
    strings, country and language strings, the budget a positive integer up
    to the cap. *)
Definition bundle_as_specified (cap : nat) (inputs : list (string * json)) : bool :=
  holds is_str_list "jobs_titles" inputs
  && holds is_str "country_name" inputs
  && holds is_str "language" inputs
  && holds (is_budget cap) "no_keywords" inputs.

(** The bundle as [__main__] passes it: the titles are one string. *)
Definition bundle_as_passed (cap : nat) (inputs : list (string * json)) : bool :=
  holds is_str "jobs_titles" inputs
  && holds is_str "country_name" inputs
  && holds is_str "language" inputs
  && holds (is_budget cap) "no_keywords" inputs.

Ltac split_mem H :=
  repeat (rewrite ?elem_of_cons, ?elem_of_app, ?elem_of_nil in H);
  repeat match type of H with
         | _ \/ _ => destruct H as [H|H]
         end.

Ltac solve_mem := repeat (rewrite ?elem_of_cons, ?elem_of_app); auto 12.

(** An event of a log that computes. *)
Ltac find_event :=
  vm_compute; repeat first [apply list_elem_of_here | apply list_elem_of_further].

(** ** A scripted world

    Providers and a language model that answer by rote, for the examples
    that close the development.  The world is the number of calls made so
    far. *)

Definition strict_int (raw : json) : option Z :=
  match raw with JInt z => Some z | _ => None end.

Definition plain_schema (_ : annotation) : string := "{}".

Definition search_up (query : string) (w : nat) : (exception + json) * nat :=
  (inr (JDict [("query", JStr query); ("results", JList [])]), S w).

(** A provider that raises once, on the third call made to the outside, and
    answers before and after it. *)
Definition search_transient (query : string) (w : nat) : (exception + json) * nat :=
  if Nat.eqb w 2 then (inl (Exception "rate limited"), S w) else search_up query w.

Definition scrape_up (website_url prompt : string) (w : nat) : (exception + json) * nat :=
  (inr (JDict [("job_title", JStr "AI Engineer")]), S w).

Definition one_result : json :=
  JDict [ ("title", JStr "AI Engineer");
          ("url", JStr "https://jobs.example/1");
          ("content", JStr "Cairo");
          ("search_query", JStr "AI engineer jobs Egypt") ].

Definition one_query : json := JDict [("queries", JList [JStr "AI engineer jobs Egypt"])].
Definition no_query : json := JDict [("queries", JList [])].
Definition no_job : json := JDict [("jobs", JList [])].

(** A record of one job, without [salary]. *)
Definition one_job : list (string * json) :=
  [ ("page_url", JStr "https://jobs.example/1");
    ("job_title", JStr "AI Engineer");
    ("company_name", JStr "Example");
    ("location", JStr "Cairo");
    ("job_posting_url", JStr "https://jobs.example/1/apply");
    ("job_posting_date", JStr "2025-01-01");
    ("job_specs", JList [JDict [ ("specification_name", JStr "seniority");
                                 ("specification_value", JStr "senior") ]]);
    ("agent_recommendation_rank", JInt 1);
    ("agent_recommendation_notes", JList [JStr "matches the title"]) ].

(** The agents by role: the first answers [queries]; the second searches once
    and answers twenty results; the third answers no job; the fourth a
    page. *)
Definition scripted_plan (queries : json) (req : Request) : reasoning :=
  if String.eqb (req_role req) "Job Search Queries Recommendation Agent"
  then FinalAnswer queries
  else if String.eqb (req_role req) "Job Search Engine Agent"
  then UseTool "search_engine_tool" "AI engineer jobs Egypt"
         (fun _ => FinalAnswer (JDict [("results", JList (replicate 20 one_result))]))
  else if String.eqb (req_role req) "Job Web Scraping Agent"
  then FinalAnswer no_job
  else FinalAnswer (JStr "<html></html>").

Definition scripted_llm (queries : json) (req : Request) (w : nat)
  : (exception + reasoning) * nat :=
  (inr (scripted_plan queries req), S w).

Section Crew.

(** pydantic's conversion of a raw value to an [int].  An [int] is taken as
    it is; which other values convert (an integral float, a numeric string)
    depends on the mode pydantic runs in and is left open. *)
Variable lax_int : json -> option Z.
Hypothesis lax_int_exact : forall z, lax_int (JInt z) = Some z.

(** ** Validation

    [Model.model_validate(raw)].  A [str] takes a string only.  A model takes
    a [dict]: each declared field is read at its name, a missing one takes its
    default when it has one, and keys that name no field are ignored. *)

(** One field of a model, [v] being the validation of its annotation. *)
Definition validate_field (v : json -> validation instance)
    (members : list (string * json)) (name : string) (default : option instance)
    (min_items max_items : option nat) : validation instance :=
  under (at_field name)
    match dict_get name members with
    | Some x => y <~ v x ;; check_items min_items max_items y
    | None =>
        match default with
        | Some d => Valid d
        | None => Invalid (mkError [] missing)
        end
    end.

Fixpoint validate (t : annotation) (raw : json) {struct t} : validation instance :=
  match t with
  | t_str =>
      match raw with
      | JStr s => Valid (VStr s)
      | _ => Invalid (mkError [] string_type)
      end
  | t_int =>
      match lax_int raw with
      | Some z => Valid (VInt z)
      | None => Invalid (mkError [] int_type)
      end
  | t_List item =>
      match raw with
      | JList items => vmap VList (validate_items (validate item) 0 items)
      | _ => Invalid (mkError [] list_type)
      end
  | t_Model cls fields =>
      match raw with
      | JDict members =>
          vmap (VModel cls)
            ((fix validate_fields (fs : list field) : validation (list (string * instance)) :=
                match fs with
                | [] => Valid []
                | Field_ name ann default min_items max_items :: rest =>
                    v <~ validate_field (validate ann) members name default
                           min_items max_items ;;
                    vs <~ validate_fields rest ;;
                    Valid ((name, v) :: vs)
                end) fields)
      | _ => Invalid (mkError [] model_type)
      end
  end.

(** The fields of a model in declaration order, as [validate] runs them. *)
Fixpoint validate_fields (members : list (string * json)) (fs : list field)
  : validation (list (string * instance)) :=
  match fs with
  | [] => Valid []
  | Field_ name ann default min_items max_items :: rest =>
      v <~ validate_field (validate ann) members name default min_items max_items ;;
      vs <~ validate_fields members rest ;;
      Valid ((name, v) :: vs)
  end.

(** What a task with [output_json=Model] keeps of a raw output: the
    validated instance as a [dict]. *)
Definition to_json (model : annotation) (raw : json) : validation json :=
  vmap model_dump (validate model raw).

(** An annotation round-trips when a plain one gives back, from the dump of
    an instance it accepted, the same instance. *)
Definition round_trips (t : annotation) : Prop :=
  plain t = true ->
  forall raw v, validate t raw = Valid v -> validate t (model_dump v) = Valid v.

(** ** The providers

    Everything outside the program (the search provider, the scraping
    provider, the language model) lives in a world [W] that each call reads
    and may change, so the same request can be answered differently the next
    time.  A call returns or raises. *)
Variable W : Type.

Definition io (A : Type) : Type := W -> (exception + A) * W.

Definition io_ret {A} (a : A) : io A := fun w => (inr a, w).

Definition io_bind {A B} (m : io A) (k : A -> io B) : io B :=
  fun w =>
    match m w with
    | (inl x, w') => (inl x, w')
    | (inr a, w') => k a w'
    end.

Notation "x <- m ;;; k" := (io_bind m (fun x => k))
  (at level 100, m at next level, right associativity).

(** [search_client.search(query)] *)
Variable search_client_search : string -> io json.
(** [scrape_client.smartscraper(website_url=, user_prompt=)] *)
Variable scrape_client_smartscraper : string -> string -> io json.
(** [Model.schema_json()], pydantic's serialisation of a model's schema. *)
Variable schema_json : annotation -> string.
(** [LLM(model="gpt-4o", temperature=0)]: the reasoning it settles on for a
    request. *)
Variable basic_llm : Request -> io reasoning.

(** ** The tools *)

Record Tool : Type := mkTool {
  tool_name : string;
  tool_doc : string;
  func : string -> io json
}.

Definition search_engine_tool (query : string) : io json :=
  search_client_search query.

Definition newline : string := String (ascii_of_nat 10) EmptyString.

Definition user_prompt : string :=
  "Extract ```json" +:+ newline +:+ schema_json SingleExtractedJob +:+ newline
  +:+ "``` from the job posting web page.".

Definition web_scraping_tool (page_url : string) : io json :=
  details <- scrape_client_smartscraper page_url user_prompt ;;;
  io_ret (JDict [("page_url", JStr page_url); ("details", details)]).

(** ** Agents, tasks and the crew *)

Record Agent : Type := mkAgent {
  role : string;
  goal : string;
  backstory : string;
  llm : Request -> io reasoning;
  tools : list Tool
}.

Record Task : Type := mkTask {
  description : string;
  expected_output : string;
  output_json : option annotation;
  output_file : string;
  agent : Agent
}.

Record Crew : Type := mkCrew {
  agents : list Agent;
  tasks : list Task;
  process : Process
}.

Definition search_queries_recommendation_agent : Agent := {|
  role := "Job Search Queries Recommendation Agent";
  goal := "Generate a list of optimized Google search queries for specific job titles and countries "
          +:+ "using best search practices and operators.";
  backstory := "Expert at constructing search engine queries to maximize the relevancy of job search results.";
  llm := basic_llm;
  tools := []
|}.

Definition search_queries_recommendation_task : Task := {|
  description :=
    "Generate up to {no_keywords} Google job search queries for the following job titles: {jobs_titles}. "
    +:+ "Focus on jobs in {country_name}, in {language}. "
    +:+ "Leverage Google search operators (quotes, OR, intitle:, inurl:) and best practices.";
  expected_output := "A JSON object containing suggested search queries.";
  output_json := Some SuggestedSearchQueries;
  output_file := os_path_join OUTPUT_DIR "step_1_suggested_job_search_queries.json";
  agent := search_queries_recommendation_agent
|}.

Definition search_engine_agent : Agent := {|
  role := "Job Search Engine Agent";
  goal := "Retrieve at least 20 high-quality job postings for specified search queries.";
  backstory := "Specialist in gathering and filtering job postings from multiple sources.";
  llm := basic_llm;
  tools := [mkTool "search_engine_tool" "Search for job postings using the Tavily API."
              search_engine_tool]
|}.

Definition search_engine_task : Task := {|
  description :=
    "Using suggested Google search queries, collect at least 20 job postings. "
    +:+ "Include title, URL, snippet, and the originating search query.";
  expected_output := "A JSON list of at least 20 job postings.";
  output_json := Some AllSearchResults;
  output_file := os_path_join OUTPUT_DIR "step_2_job_search_results.json";
  agent := search_engine_agent
|}.

Definition scraping_agent : Agent := {|
  role := "Job Web Scraping Agent";
  goal := "Extract detailed, structured, and ranked job information from posting URLs.";
  backstory := "Expert at parsing job details for candidate decision-making.";
  llm := basic_llm;
  tools := [mkTool "web_scraping_tool" "Extract structured job data from a job posting page."
              web_scraping_tool]
|}.

Definition scraping_task : Task := {|
  description :=
    "From the provided URLs, extract structured details for each job posting: "
    +:+ "title, company, location, date, salary (if present), and up to 5 specs. "
    +:+ "Add recommendation notes and rank each job.";
  expected_output := "A JSON object with all extracted job details.";
  output_json := Some AllExtractedJobs;
  output_file := os_path_join OUTPUT_DIR "step_3_extracted_jobs.json";
  agent := scraping_agent
|}.

Definition recruitment_report_author_agent : Agent := {|
  role := "Recruitment Report Author Agent";
  goal := "Generate a professional, Bootstrap-styled HTML report summarizing all jobs.";
  backstory := "Expert in creating clear, actionable recruitment reports.";
  llm := basic_llm;
  tools := []
|}.

Definition recruitment_report_author_task : Task := {|
  description :=
    "Create a Bootstrap-styled HTML page with a job table including: job title, company, location, date, salary, "
    +:+ "direct job links, and a summary for each job.";
  expected_output := "An HTML file with a responsive job report.";
  output_json := None;
  output_file := os_path_join OUTPUT_DIR "step_4_recruitment_report.html";
  agent := recruitment_report_author_agent
|}.

Definition rankyx_crew : Crew := {|
  agents := [ search_queries_recommendation_agent;
              search_engine_agent;
              scraping_agent;
              recruitment_report_author_agent ];
  tasks := [ search_queries_recommendation_task;
             search_engine_task;
             scraping_task;
             recruitment_report_author_task ];
  process := sequential
|}.

(** ** Running the crew

    [Crew.kickoff] and the execution of a task belong to the crewai library,
    whose sources are not part of the program.  The run below is the one the
    specification lays down for a sequential crew: the tasks one at a time in
    list order, each output checked against the task's model before it is
    written to the task's file and handed on, and the first failure ending
    the run. *)

Record Run : Type := mkRun {
  state : RunState;
  context : list json;
  files : gmap string json;
  log : list event;
  world : W
}.

Definition find_tool (name : string) (ts : list Tool) : option Tool :=
  List.find (fun t => String.eqb (tool_name t) name) ts.

(** Modelled from the spec: the tool calls of one stage (crewai's agent
    executor is missing from the sources).  A tool on the agent's list is
    called with the argument given and its payload handed back to the
    reasoning; a tool that raises ends the stage with what it raised; a name
    that is not on the list reaches no tool. *)
Fixpoint run_reasoning (stage : nat) (allowed : list Tool) (plan : reasoning) (w : W)
  : (exception + json) * W * list event :=
  match plan with
  | FinalAnswer raw => (inr raw, w, [])
  | UseTool name arg k =>
      match find_tool name allowed with
      | None => run_reasoning stage allowed (k JNull) w
      | Some t =>
          match func t arg w with
          | (inl x, w') =>
              (inl x, w', [ToolCalled stage name arg; ToolRaised stage name x])
          | (inr payload, w') =>
              let '(res, w'', evs) := run_reasoning stage allowed (k payload) w' in
              (res, w'', ToolCalled stage name arg :: evs)
          end
      end
  end.

(** The calls that a reasoning makes to the tools on its list when it starts
    in the world [w]: the name, the argument and the world each call is made
    in.  The reasoning goes on from the payload of a call, so there is no
    call left to make after one that raised.  What becomes of the stage then
    is not said here. *)
Fixpoint tool_calls (allowed : list Tool) (plan : reasoning) (w : W)
  : list (string * string * W) :=
  match plan with
  | FinalAnswer _ => []
  | UseTool name arg k =>
      match find_tool name allowed with
      | None => tool_calls allowed (k JNull) w
      | Some t =>
          (name, arg, w)
            :: match func t arg w with
               | (inl _, _) => []
               | (inr payload, w') => tool_calls allowed (k payload) w'
               end
      end
  end.

Definition request_of (t : Task) (inputs : list (string * json)) (ctx : list json)
  : Request :=
  let a := agent t in
  mkRequest (role a) (goal a) (backstory a) (description t) (expected_output t)
    inputs ctx (map tool_name (tools a)).

(** What a task keeps of the raw answer: the dumped instance when the task
    has a model, the answer itself when it has none. *)
Definition artifact_of (t : Task) (raw : json) : validation json :=
  match output_json t with
  | Some model => to_json model raw
  | None => Valid raw
  end.

Definition stage_failed (r : Run) (stage : nat) (evs : list event) (w : W)
    (e : PipelineError) : Run :=
  {| state := FAILED stage e;
     context := context r;
     files := files r;
     log := log r ++ evs;
     world := w |}.

Definition stage_passed (r : Run) (stage : nat) (evs : list event) (w : W)
    (path : string) (raw a : json) : Run :=
  {| state := RUNNING stage;
     context := context r ++ [a];
     files := <[path := a]> (files r);
     log := log r ++ evs
              ++ [Answered stage raw; Accepted stage a; Written stage path a];
     world := w |}.

(** Modelled from the spec: one stage (crewai's [Task] execution is missing
    from the sources).  The agent's model is invoked on the task and the
    context so far, its tool calls are run, and its answer is validated; only
    an answer that validates is written to [output_file] and appended to the
    context. *)
Definition execute_task (stage : nat) (inputs : list (string * json)) (t : Task)
    (r : Run) : Run :=
  let request := request_of t inputs (context r) in
  let invoked := Invoked stage request in
  match llm (agent t) request (world r) with
  | (inl x, w) =>
      stage_failed r stage [invoked; ModelRaised stage x] w (CollaboratorError x)
  | (inr plan, w) =>
      match run_reasoning stage (tools (agent t)) plan w with
      | (inl x, w', evs) => stage_failed r stage (invoked :: evs) w' (CollaboratorError x)
      | (inr raw, w', evs) =>
          match artifact_of t raw with
          | Invalid e =>
              stage_failed r stage (invoked :: evs ++ [Answered stage raw]) w'
                (ValidationError e)
          | Valid a => stage_passed r stage (invoked :: evs) w' (output_file t) raw a
          end
      end
  end.

(** Modelled from the spec: the sequential process (crewai's [Crew.kickoff]
    is missing from the sources).  Stage [stage] is the head of [ts]; a
    failed stage is the end of the run. *)
Fixpoint execute_tasks (stage : nat) (inputs : list (string * json)) (ts : list Task)
    (r : Run) : Run :=
  match ts with
  | [] =>
      {| state := COMPLETED; context := context r; files := files r;
         log := log r; world := world r |}
  | t :: rest =>
      let r' := execute_task stage inputs t r in
      match state r' with
      | FAILED _ _ => r'
      | _ => execute_tasks (S stage) inputs rest r'
      end
  end.

(** Modelled from the spec: [crew.kickoff(inputs=...)] (missing from the
    sources), one run over the crew's tasks from stage 1 on, from the files
    [fs] already on disk. *)
Definition kickoff (crew : Crew) (inputs : list (string * json))
    (fs : gmap string json) (w : W) : Run :=
  match process crew with
  | sequential =>
      execute_tasks 1 inputs (tasks crew)
        {| state := NOT_STARTED; context := []; files := fs; log := []; world := w |}
  end.

(** [__main__]: one call of [kickoff], with [main_inputs]. *)
Definition main (fs : gmap string json) (w : W) : Run :=
  kickoff rankyx_crew main_inputs fs w.

(** ** The shape of a run *)

Definition is_call (stage : nat) (e : event) : Prop :=
  match e with ToolCalled s _ _ => s = stage | _ => False end.

Definition invoked_stage (e : event) : option nat :=
  match e with Invoked s _ => Some s | _ => None end.

(** The stages whose model was invoked, in the order of the log. *)
Definition invoked_stages (l : list event) : list nat := omap invoked_stage l.



Definition write (fs : gmap string json) (pa : string * json) : gmap string json :=
  <[pa.1 := pa.2]> fs.

(** The shape of the log of a run over the tasks [ts] from stage [s] on,
    entered with the context [ctx]: the events, the files written (path and
    content, in order) and the state the run ends in. *)
Inductive crew_trace (inputs : list (string * json))
  : nat -> list Task -> list json -> list event -> list (string * json)
    -> RunState -> Prop :=
| trace_completed s ctx :
    crew_trace inputs s [] ctx [] [] COMPLETED
| trace_passed s t ts ctx calls raw a tr wr st :
    Forall (is_call s) calls ->
    artifact_of t raw = Valid a ->
    crew_trace inputs (S s) ts (ctx ++ [a]) tr wr st ->
    crew_trace inputs s (t :: ts) ctx
      (Invoked s (request_of t inputs ctx) :: calls
         ++ [Answered s raw; Accepted s a; Written s (output_file t) a] ++ tr)
      ((output_file t, a) :: wr) st
| trace_invalid s t ts ctx calls raw d :
    Forall (is_call s) calls ->
    artifact_of t raw = Invalid d ->
    crew_trace inputs s (t :: ts) ctx
      (Invoked s (request_of t inputs ctx) :: calls ++ [Answered s raw]) []
      (FAILED s (ValidationError d))
| trace_tool_raised s t ts ctx calls name tl arg x w0 w1 :
    Forall (is_call s) calls ->
    find_tool name (tools (agent t)) = Some tl ->
    func tl arg w0 = (inl x, w1) ->
    crew_trace inputs s (t :: ts) ctx
      (Invoked s (request_of t inputs ctx) :: calls ++ [ToolRaised s name x]) []
      (FAILED s (CollaboratorError x))
| trace_model_raised s t ts ctx x :
    crew_trace inputs s (t :: ts) ctx
      [Invoked s (request_of t inputs ctx); ModelRaised s x] []
      (FAILED s (CollaboratorError x)).

(** * Properties of the models *)

Lemma validate_model_unfold cls fields members :
  validate (t_Model cls fields) (JDict members)
  = vmap (VModel cls) (validate_fields members fields).
Proof.
  simpl. f_equal. induction fields as [|[name ann d mn mx] rest IH]; [done|].
  simpl. by rewrite IH.
Qed.

Lemma validate_list_unfold ann items :
  validate (t_List ann) (JList items)
  = vmap VList (validate_items (validate ann) 0 items).
Proof. done. Qed.

Lemma validate_str_unfold s : validate t_str (JStr s) = Valid (VStr s).
Proof. done. Qed.

Lemma validate_int_unfold z : validate t_int (JInt z) = Valid (VInt z).
Proof. unfold validate. by rewrite lax_int_exact. Qed.

Arguments validate : simpl never.

Lemma is_valid_vbind_false {A B} (r : validation A) (k : A -> validation B) :
  is_valid r = false -> is_valid (vbind r k) = false.
Proof. by destruct r. Qed.

Lemma is_valid_vmap {A B} (f : A -> B) (r : validation A) :
  is_valid (vmap f r) = is_valid r.
Proof. by destruct r. Qed.

Lemma is_valid_under {A} i (r : validation A) : is_valid (under i r) = is_valid r.
Proof. by destruct r. Qed.

Lemma has_key_false key members :
  has_key key (JDict members) = false -> dict_get key members = None.
Proof.
  simpl. intros H. apply bool_decide_eq_false in H.
  destruct (dict_get key members); [|done]. exfalso. apply H. eauto.
Qed.

(** A model whose required field is not among the members is rejected,
    whatever the other members hold. *)
Lemma validate_fields_missing members fs name ann mn mx :
  Field_ name ann None mn mx ∈ fs ->
  dict_get name members = None ->
  is_valid (validate_fields members fs) = false.
Proof.
  intros Hin Hget. induction fs as [|[n a d mi ma] rest IH]; [by apply elem_of_nil in Hin|].
  apply elem_of_cons in Hin as [Heq|Hin].
  - injection Heq as <- <- <- <- <-. simpl. unfold validate_field. by rewrite Hget.
  - simpl. destruct (validate_field _ _ _ _ _ _); [|done]. simpl.
    apply is_valid_vbind_false. by apply IH.
Qed.

Lemma validate_items_length f i items vs :
  validate_items f i items = Valid vs -> length vs = length items.
Proof.
  revert i vs. induction items as [|x rest IH]; intros i vs; simpl.
  - by intros [= <-].
  - destruct (f x); simpl; [|done].
    destruct (validate_items f (S i) rest) eqn:E; simpl; [|done].
    intros [= <-]. simpl. f_equal. by eapply IH.
Qed.

Lemma validate_items_strs i qs :
  validate_items (validate t_str) i (map JStr qs) = Valid (map VStr qs).
Proof.
  revert i. induction qs as [|q rest IH]; intros i; [done|].
  simpl. by rewrite IH.
Qed.

Lemma model_dump_strs qs : map model_dump (map VStr qs) = map JStr qs.
Proof. induction qs as [|q rest IH]; [done|]. simpl. by rewrite IH. Qed.

(** A list field under [min_items] holding fewer items is rejected, whatever
    the items are. *)
Lemma validate_field_too_short ann members name d n mx items :
  dict_get name members = Some (JList items) ->
  (length items < n)%nat ->
  is_valid (validate_field (validate (t_List ann)) members name d (Some n) mx) = false.
Proof.
  intros Hget Hlen. unfold validate_field.
  rewrite Hget, is_valid_under, validate_list_unfold.
  destruct (validate_items (validate ann) 0 items) as [vs|e] eqn:E; [|done].
  apply validate_items_length in E. simpl.
  assert ((length vs <? n)%nat = true) as -> by (apply Nat.ltb_lt; lia). done.
Qed.

Lemma validate_field_too_long ann members name d mn n items :
  dict_get name members = Some (JList items) ->
  (n < length items)%nat ->
  is_valid (validate_field (validate (t_List ann)) members name d mn (Some n)) = false.
Proof.
  intros Hget Hlen. unfold validate_field.
  rewrite Hget, is_valid_under, validate_list_unfold.
  destruct (validate_items (validate ann) 0 items) as [vs|e] eqn:E; [|done].
  apply validate_items_length in E. simpl.
  destruct (fewer_than mn (length vs)); [done|].
  assert ((n <? length vs)%nat = true) as -> by (apply Nat.ltb_lt; lia). done.
Qed.

(** C2: the stage-1 model rejects a raw output whose query list has fewer
    than 1 or more than [NUM_QUERIES] = 10 items, and accepts a list of
    strings within these bounds as it is: the instance holds the same
    strings in the same order, and so does the dict kept of it. *)
Theorem suggested_queries_bounds :
  NUM_QUERIES = 10%nat
  /\ (forall members items,
        dict_get "queries" members = Some (JList items) ->
        (length items < 1 \/ NUM_QUERIES < length items)%nat ->
        is_valid (validate SuggestedSearchQueries (JDict members)) = false)
  /\ (forall members qs,
        dict_get "queries" members = Some (JList (map JStr qs)) ->
        (1 <= length qs <= NUM_QUERIES)%nat ->
        validate SuggestedSearchQueries (JDict members)
        = Valid (VModel "SuggestedSearchQueries" [("queries", VList (map VStr qs))])
        /\ to_json SuggestedSearchQueries (JDict members)
           = Valid (JDict [("queries", JList (map JStr qs))])).
Proof.
  split; [done|]. split.
  - intros members items Hget Hlen. unfold SuggestedSearchQueries.
    rewrite validate_model_unfold, is_valid_vmap. simpl.
    apply is_valid_vbind_false. destruct Hlen as [Hlen|Hlen].
    + by eapply validate_field_too_short.
    + by eapply validate_field_too_long.
  - intros members qs Hget [Hmin Hmax].
    assert (validate SuggestedSearchQueries (JDict members)
            = Valid (VModel "SuggestedSearchQueries" [("queries", VList (map VStr qs))]))
      as Hv.
    { unfold SuggestedSearchQueries. rewrite validate_model_unfold. simpl.
      unfold validate_field. rewrite Hget, validate_list_unfold, validate_items_strs.
      simpl. rewrite length_map.
      assert ((length qs <? 1)%nat = false) as -> by (apply Nat.ltb_ge; lia).
      assert ((NUM_QUERIES <? length qs)%nat = false) as -> by (apply Nat.ltb_ge; lia).
      done. }
    split; [done|]. unfold to_json. rewrite Hv. simpl.
    by rewrite model_dump_strs.
Qed.

(** C3: the stage-2 model rejects a raw output whose result list has fewer
    than 20 items; nothing is asked of the items, so well-formed ones do not
    save it. *)
Theorem search_results_minimum :
  forall members items,
    dict_get "results" members = Some (JList items) ->
    (length items < 20)%nat ->
    is_valid (validate AllSearchResults (JDict members)) = false.
Proof.
  intros members items Hget Hlen. unfold AllSearchResults.
  rewrite validate_model_unfold, is_valid_vmap. cbn [validate_fields].
  apply is_valid_vbind_false. by eapply validate_field_too_short.
Qed.

Lemma required_field_in name fields :
  name ∈ map field_name (List.filter is_required fields) ->
  exists ann mn mx, Field_ name ann None mn mx ∈ fields.
Proof.
  intros Hin. apply list_elem_of_fmap in Hin as ([n a d mn mx] & -> & Hin).
  apply list_elem_of_In, filter_In in Hin as [Hin Hreq].
  apply list_elem_of_In in Hin. destruct d; [done|]. simpl. eauto.
Qed.

(** A raw value that lacks a required field of a model is rejected. *)
Lemma validate_missing_required cls fields raw name :
  name ∈ required_fields (t_Model cls fields) ->
  has_key name raw = false ->
  is_valid (validate (t_Model cls fields) raw) = false.
Proof.
  intros Hin Hkey. destruct raw as [| | | | | |members]; try done.
  apply required_field_in in Hin as (ann & mn & mx & Hin).
  rewrite validate_model_unfold, is_valid_vmap.
  eapply validate_fields_missing; [done|]. by apply has_key_false.
Qed.

Lemma check_items_unbounded v : check_items None None v = Valid v.
Proof. by destruct v. Qed.

(** A field whose member validates against its annotation, with no bound on
    its items, takes the validated member. *)
Lemma validate_field_present ann members name d x v :
  dict_get name members = Some x ->
  validate ann x = Valid v ->
  validate_field (validate ann) members name d None None = Valid v.
Proof.
  intros Hget Hv. unfold validate_field. rewrite Hget, Hv. simpl.
  by rewrite check_items_unbounded.
Qed.

Lemma validate_field_default ann members name d :
  dict_get name members = None ->
  validate_field (validate ann) members name (Some d) None None = Valid d.
Proof. intros Hget. unfold validate_field. by rewrite Hget. Qed.

Ltac present_field H name ann :=
  let x := fresh "x" in
  let G := fresh "G" in
  let V := fresh "V" in
  let v := fresh "v" in
  let E := fresh "E" in
  destruct (H (required name ann)) as (x & G & V);
  [ unfold SingleExtractedJob; simpl; repeat constructor | done | ];
  simpl in G, V; destruct (validate ann x) as [v|] eqn:E; [clear V|discriminate V];
  rewrite (validate_field_present ann _ name None x v G E).

(** C4: the per-job model requires nine fields and has one optional field,
    [salary].  A raw record that lacks any of the nine is rejected.  A raw
    record without [salary] whose nine required members each validate
    against their own annotation is accepted, and the instance holds [None]
    for [salary]. *)
Theorem extracted_job_required_fields :
  required_fields SingleExtractedJob
  = [ "page_url"; "job_title"; "company_name"; "location"; "job_posting_url";
      "job_posting_date"; "job_specs"; "agent_recommendation_rank";
      "agent_recommendation_notes" ]
  /\ optional_fields SingleExtractedJob = [ "salary" ]
  /\ (forall raw name,
        name ∈ required_fields SingleExtractedJob ->
        has_key name raw = false ->
        is_valid (validate SingleExtractedJob raw) = false)
  /\ (forall members,
        dict_get "salary" members = None ->
        (forall f, f ∈ fields_of SingleExtractedJob -> is_required f = true ->
           exists x, dict_get (field_name f) members = Some x
                     /\ is_valid (validate (field_ann f) x) = true) ->
        exists attrs,
          validate SingleExtractedJob (JDict members)
          = Valid (VModel "SingleExtractedJob" attrs)
          /\ map fst attrs = map field_name (fields_of SingleExtractedJob)
          /\ ("salary", VNone) ∈ attrs).
Proof.
  split; [done|]. split; [done|]. split.
  - intros raw name. apply validate_missing_required.
  - intros members Hsal Hreq.
    unfold SingleExtractedJob at 1. rewrite validate_model_unfold.
    cbn [validate_fields]. unfold required at 1 2 3 4 5 6 7 8 9, defaulted.
    present_field Hreq "page_url" t_str.
    present_field Hreq "job_title" t_str.
    present_field Hreq "company_name" t_str.
    present_field Hreq "location" t_str.
    present_field Hreq "job_posting_url" t_str.
    present_field Hreq "job_posting_date" t_str.
    present_field Hreq "job_specs" (t_List JobSpec).
    present_field Hreq "agent_recommendation_rank" t_int.
    present_field Hreq "agent_recommendation_notes" (t_List t_str).
    rewrite (validate_field_default _ _ _ _ Hsal). simpl.
    eexists. split; [done|]. split; [done|].
    do 6 apply list_elem_of_further. apply list_elem_of_here.
Qed.

(** Strings that validated dump to raw strings that validate to the same
    instances. *)
Lemma validate_items_str_dump i j items vs :
  validate_items (validate t_str) i items = Valid vs ->
  validate_items (validate t_str) j (map model_dump vs) = Valid vs.
Proof.
  revert i j vs. induction items as [|x rest IH]; intros i j vs; simpl.
  - by intros [= <-].
  - destruct x; simpl; try done.
    destruct (validate_items (validate t_str) (S i) rest) as [ws|] eqn:E; simpl; [|done].
    intros [= <-]. simpl. by rewrite (IH _ (S j) _ E).
Qed.

(** C6: an instance the stage-1 model accepted, dumped with [model_dump] and
    validated again, is the same instance; and the dict a task keeps of an
    accepted output is kept unchanged when it is read back through the
    model. *)
Theorem suggested_queries_round_trip :
  (forall raw v,
      validate SuggestedSearchQueries raw = Valid v ->
      validate SuggestedSearchQueries (model_dump v) = Valid v)
  /\ (forall raw a,
        to_json SuggestedSearchQueries raw = Valid a ->
        to_json SuggestedSearchQueries a = Valid a).
Proof.
  assert (forall raw v,
             validate SuggestedSearchQueries raw = Valid v ->
             validate SuggestedSearchQueries (model_dump v) = Valid v) as Hrt;
    [|split; [exact Hrt|]].
  2:{ intros raw a. unfold to_json.
      destruct (validate SuggestedSearchQueries raw) as [v|] eqn:Hv; [|done].
      simpl. intros [= <-]. by rewrite (Hrt raw v Hv). }
  intros raw v. destruct raw as [| | | | | |members]; try done.
  unfold SuggestedSearchQueries. rewrite validate_model_unfold.
  cbn [validate_fields]. unfold validate_field at 1.
  destruct (dict_get "queries" members) as [x|]; [|done].
  destruct x as [| | | | |items|]; try done.
  rewrite validate_list_unfold.
  destruct (validate_items (validate t_str) 0 items) as [vs|] eqn:E; [|done].
  simpl. destruct (length vs <? 1)%nat eqn:Hmin; [done|].
  destruct (NUM_QUERIES <? length vs)%nat eqn:Hmax; [done|].
  simpl. intros [= <-]. simpl. rewrite validate_model_unfold.
  cbn [validate_fields]. unfold validate_field. simpl.
  rewrite validate_list_unfold, (validate_items_str_dump _ _ _ _ E). simpl.
  by rewrite Hmin, Hmax.
Qed.

Lemma append_assoc (a b c : string) : (a +:+ b) +:+ c = a +:+ (b +:+ c).
Proof. induction a as [|ch a IH]; [done|]. exact (f_equal (String ch) IH). Qed.

(** C7: for every page URL the scrape tool makes one request to the
    scraping provider, for that URL and with an instruction that embeds the
    serialised schema of the per-job model; when the provider returns, the
    tool returns a dict of exactly [page_url], the URL it was called with,
    and [details], the provider's payload; when the provider raises, so does
    the tool. *)
Theorem web_scraping_tool_returns :
  (exists before after,
      user_prompt = before +:+ schema_json SingleExtractedJob +:+ after)
  /\ (forall page_url w,
        web_scraping_tool page_url w
        = match scrape_client_smartscraper page_url user_prompt w with
          | (inr details, w') =>
              (inr (JDict [("page_url", JStr page_url); ("details", details)]), w')
          | (inl x, w') => (inl x, w')
          end).
Proof.
  split.
  - exists ("Extract ```json" +:+ newline), (newline +:+ "``` from the job posting web page.").
    unfold user_prompt. by rewrite append_assoc.
  - intros page_url w. unfold web_scraping_tool, io_bind, io_ret.
    by destruct (scrape_client_smartscraper page_url user_prompt w) as [[x|details] w'].
Qed.

(** * Properties of a run *)

Lemma run_reasoning_events stage allowed plan w res w' evs :
  run_reasoning stage allowed plan w = (res, w', evs) ->
  match res with
  | inr _ => Forall (is_call stage) evs
  | inl x =>
      exists calls name tl arg w0 w1,
        Forall (is_call stage) calls /\ evs = calls ++ [ToolRaised stage name x]
        /\ find_tool name allowed = Some tl /\ func tl arg w0 = (inl x, w1)
  end.
Proof.
  revert w res w' evs. induction plan as [raw|name arg k IH]; intros w res w' evs; simpl.
  - intros [= <- <- <-]. constructor.
  - destruct (find_tool name allowed) as [t|] eqn:Hfind; [|by apply IH].
    destruct (func t arg w) as [[x|payload] w1] eqn:Hcall.
    + intros [= <- <- <-]. exists [ToolCalled stage name arg], name, t, arg, w, w1.
      split; [by repeat constructor|done].
    + destruct (run_reasoning stage allowed (k payload) w1) as [[res1 w2] evs1] eqn:E.
      intros [= <- <- <-]. apply IH in E. destruct res1 as [x|raw].
      * destruct E as (calls & nm & tl & arg' & w0 & w3 & Hc & -> & Hf & Hr).
        exists (ToolCalled stage name arg :: calls), nm, tl, arg', w0, w3.
        split; [by constructor|done].
      * by constructor.
Qed.

(** The run of the tasks [ts] from stage [s] on, from the run [r] so far:
    its log, files and context grow by a trace of the shape above. *)
Lemma execute_tasks_trace inputs ts : forall s r,
  exists tr wr,
    crew_trace inputs s ts (context r) tr wr (state (execute_tasks s inputs ts r))
    /\ log (execute_tasks s inputs ts r) = log r ++ tr
    /\ files (execute_tasks s inputs ts r) = foldl write (files r) wr
    /\ context (execute_tasks s inputs ts r) = context r ++ wr.*2.
Proof.
  induction ts as [|t ts IH]; intros s r.
  - exists [], []. simpl. rewrite !app_nil_r. split; [|done]. constructor.
  - simpl. unfold execute_task.
    destruct (llm (agent t) (request_of t inputs (context r)) (world r))
      as [[x|plan] w1].
    { exists [Invoked s (request_of t inputs (context r)); ModelRaised s x], []. simpl.
      rewrite app_nil_r. split; [|done]. constructor. }
    destruct (run_reasoning s (tools (agent t)) plan w1) as [[[x|raw] w2] evs] eqn:E;
      apply run_reasoning_events in E.
    { destruct E as (calls & name & tl & arg & w0 & w3 & Hcalls & -> & Hf & Hr).
      exists (Invoked s (request_of t inputs (context r))
                :: calls ++ [ToolRaised s name x]), []. simpl.
      rewrite app_nil_r. split; [|done]. by econstructor. }
    destruct (artifact_of t raw) as [a|d] eqn:Ha.
    + simpl.
      destruct (IH (S s) (stage_passed r s
                            (Invoked s (request_of t inputs (context r)) :: evs)
                            w2 (output_file t) raw a))
        as (tr & wr & Htr & Hlog & Hfiles & Hctx).
      exists (Invoked s (request_of t inputs (context r)) :: evs
                ++ [Answered s raw; Accepted s a; Written s (output_file t) a] ++ tr),
        ((output_file t, a) :: wr).
      split; [by constructor|]. rewrite Hlog, Hfiles, Hctx. simpl.
      split; [|split; [done|]].
      * rewrite <- !app_assoc. simpl. by rewrite <- !app_assoc.
      * by rewrite <- app_assoc.
    + exists (Invoked s (request_of t inputs (context r)) :: evs ++ [Answered s raw]), [].
      simpl. rewrite app_nil_r. split; [|done]. by constructor.
Qed.

Lemma kickoff_trace crew inputs fs w :
  exists tr wr,
    crew_trace inputs 1 (tasks crew) [] tr wr (state (kickoff crew inputs fs w))
    /\ log (kickoff crew inputs fs w) = tr
    /\ files (kickoff crew inputs fs w) = foldl write fs wr
    /\ context (kickoff crew inputs fs w) = wr.*2.
Proof.
  unfold kickoff. destruct (process crew).
  apply (execute_tasks_trace inputs (tasks crew) 1
           {| state := NOT_STARTED; context := []; files := fs; log := []; world := w |}).
Qed.

Lemma is_call_inv s calls e :
  Forall (is_call s) calls -> e ∈ calls -> exists name arg, e = ToolCalled s name arg.
Proof.
  intros Hall He. rewrite Forall_forall in Hall. specialize (Hall e He).
  destruct e; simpl in Hall; try done. subst. eauto.
Qed.

Lemma invoked_stages_calls s calls :
  Forall (is_call s) calls -> invoked_stages calls = [].
Proof.
  induction 1 as [|e calls He _ IH]; [done|].
  unfold invoked_stages in *. simpl. destruct e; simpl in He; try done.
Qed.

Lemma invoked_stages_app l1 l2 :
  invoked_stages (l1 ++ l2) = invoked_stages l1 ++ invoked_stages l2.
Proof. apply omap_app. Qed.

Lemma invoked_stages_block s req calls rest :
  Forall (is_call s) calls ->
  invoked_stages (Invoked s req :: calls ++ rest) = s :: invoked_stages rest.
Proof.
  intros Hc.
  change (Invoked s req :: calls ++ rest) with ([Invoked s req] ++ calls ++ rest).
  by rewrite !invoked_stages_app, (invoked_stages_calls _ _ Hc).
Qed.


Section Trace.

Variable inputs : list (string * json).





(** The stages are invoked in list order, each once, up to the stage the run
    ends in; one file is written per stage that passed, at the stage's
    path. *)
Lemma crew_trace_order s ts ctx tr wr st :
  crew_trace inputs s ts ctx tr wr st ->
  exists k, (k <= length ts)%nat
    /\ invoked_stages tr = seq s k
    /\ wr.*1 = map output_file (take (length wr) ts)
    /\ match st with
       | COMPLETED => k = length ts /\ length wr = k
       | FAILED n _ => S n = (s + k)%nat /\ S (length wr) = k
       | _ => False
       end.
Proof.
  induction 1 as [s ctx|s t ts ctx calls raw a tr wr st Hc Ha Htr IH|s t ts ctx calls raw d Hc Ha
                  |s t ts ctx calls nm tl arg y w0 w1 Hc Hf Hr|s t ts ctx y].
  - by exists 0%nat.
  - destruct IH as (k & Hk & Hinv & Hwr & Hst). exists (S k).
    split; [simpl; lia|]. split; [|split].
    + by rewrite (invoked_stages_block _ _ _ _ Hc), invoked_stages_app, Hinv.
    + by rewrite fmap_cons, Hwr.
    + simpl. destruct st; try done; lia.
  - exists 1%nat. split; [simpl; lia|]. split; [|split; [done|simpl; lia]].
    by rewrite (invoked_stages_block _ _ _ _ Hc).
  - exists 1%nat. split; [simpl; lia|]. split; [|split; [done|simpl; lia]].
    by rewrite (invoked_stages_block _ _ _ _ Hc).
  - exists 1%nat. simpl. split; [lia|]. split; [done|]. split; [done|lia].
Qed.


(** What a stage is handed: the request put before the model of stage [n]
    carries the parameters of the run and, as context, the artifacts of the
    stages before it, in order. *)
Lemma crew_trace_request s ts ctx tr wr st :
  crew_trace inputs s ts ctx tr wr st ->
  forall n req, Invoked n req ∈ tr ->
    exists t,
      (s <= n)%nat /\ ts !! (n - s)%nat = Some t
      /\ req = request_of t inputs (ctx ++ take (n - s) wr.*2).
Proof.
  induction 1 as [s ctx|s t ts ctx calls raw a tr wr st Hc Ha Htr IH|s t ts ctx calls raw d Hc Ha
                  |s t ts ctx calls nm tl arg y w0 w1 Hc Hf Hr|s t ts ctx y]; intros n req He.
  - by apply elem_of_nil in He.
  - split_mem He; try done.
    + injection He as -> ->. exists t. rewrite Nat.sub_diag. simpl.
      by rewrite app_nil_r.
    + by destruct (is_call_inv _ _ _ Hc He) as (? & ? & ?).
    + destruct (IH n req He) as (t' & Hn & Ht & ->). exists t'.
      replace (n - s)%nat with (S (n - S s)) by lia. simpl.
      split; [lia|]. split; [done|]. by rewrite <- app_assoc.
  - split_mem He; try done; [|by destruct (is_call_inv _ _ _ Hc He) as (? & ? & ?)].
    injection He as -> ->. exists t. rewrite Nat.sub_diag. simpl. by rewrite app_nil_r.
  - split_mem He; try done; [|by destruct (is_call_inv _ _ _ Hc He) as (? & ? & ?)].
    injection He as -> ->. exists t. rewrite Nat.sub_diag. simpl. by rewrite app_nil_r.
  - split_mem He; try done.
    injection He as -> ->. exists t. rewrite Nat.sub_diag. simpl. by rewrite app_nil_r.
Qed.




(** A tool that raises ends the run at its stage with what it raised:
    nothing is written for that stage or a later one, and no later stage is
    invoked.  The tool is one on the list of the stage's agent, and what it
    raised is what one of its calls raised. *)
Lemma crew_trace_tool_raised s ts ctx tr wr st :
  crew_trace inputs s ts ctx tr wr st ->
  forall n name x, ToolRaised n name x ∈ tr ->
    st = FAILED n (CollaboratorError x)
    /\ (forall m p a, (n <= m)%nat -> Written m p a ∉ tr)
    /\ (forall m req, (n < m)%nat -> Invoked m req ∉ tr)
    /\ (s <= n)%nat /\ length wr = (n - s)%nat
    /\ (exists t tl arg w0 w1,
          ts !! (n - s)%nat = Some t /\ find_tool name (tools (agent t)) = Some tl
          /\ func tl arg w0 = (inl x, w1)).
Proof.
  induction 1 as [s ctx|s t ts ctx calls raw a tr wr st Hc Ha Htr IH|s t ts ctx calls raw d Hc Ha
                  |s t ts ctx calls nm tl arg y w0 w1 Hc Hf Hr|s t ts ctx y]; intros n name x He.
  - by apply elem_of_nil in He.
  - assert (ToolRaised n name x ∈ tr) as He'.
    { split_mem He; try done. by destruct (is_call_inv _ _ _ Hc He) as (? & ? & ?). }
    destruct (IH n name x He') as (Hst & Hw & Hi & Hn & Hlen & Hcause).
    split; [done|]. split; [|split; [|split; [lia|split; [simpl; lia|]]]].
    + intros m p b Hm Hin. split_mem Hin; try done.
      * by destruct (is_call_inv _ _ _ Hc Hin) as (? & ? & ?).
      * injection Hin; lia.
      * by apply (Hw m p b).
    + intros m req Hm Hin. split_mem Hin; try done.
      * injection Hin; lia.
      * by destruct (is_call_inv _ _ _ Hc Hin) as (? & ? & ?).
      * by apply (Hi m req).
    + destruct Hcause as (t' & tl & arg & w0 & w1 & Ht & Hf & Hr).
      exists t', tl, arg, w0, w1. replace (n - s)%nat with (S (n - S s)) by lia. done.
  - split_mem He; try done. by destruct (is_call_inv _ _ _ Hc He) as (? & ? & ?).
  - split_mem He; try done; [by destruct (is_call_inv _ _ _ Hc He) as (? & ? & ?)|].
    injection He as -> -> ->. split; [done|].
    split; [|split; [|split; [lia|split; [simpl; lia|]]]].
    + intros m p b Hm Hin. split_mem Hin; try done. by destruct (is_call_inv _ _ _ Hc Hin) as (? & ? & ?).
    + intros m req Hm Hin. split_mem Hin; try done; [injection Hin; lia|]. by destruct (is_call_inv _ _ _ Hc Hin) as (? & ? & ?).
    + exists t, tl, arg, w0, w1. by rewrite Nat.sub_diag.
  - split_mem He; try done.
Qed.

End Trace.

(** ** The files of a run *)

Lemma foldl_write_notin wr (fs : gmap string json) p :
  p ∉ wr.*1 -> foldl write fs wr !! p = fs !! p.
Proof.
  revert fs. induction wr as [|[q a] wr IH]; intros fs Hp; [done|].
  rewrite fmap_cons in Hp. apply not_elem_of_cons in Hp as [Hpq Hp].
  simpl. rewrite IH by done. unfold write. simpl. by rewrite lookup_insert_ne.
Qed.

Lemma foldl_write_in wr (fs : gmap string json) p a :
  NoDup wr.*1 -> (p, a) ∈ wr -> foldl write fs wr !! p = Some a.
Proof.
  revert fs. induction wr as [|[q b] wr IH]; intros fs Hnd Hin.
  - by apply elem_of_nil in Hin.
  - rewrite fmap_cons in Hnd. apply NoDup_cons in Hnd as [Hq Hnd].
    apply elem_of_cons in Hin as [[= -> ->]|Hin]; simpl.
    + rewrite foldl_write_notin by done. unfold write. simpl.
      by rewrite lookup_insert_eq.
    + by apply IH.
Qed.

Lemma foldl_write_dom wr (fs : gmap string json) :
  dom (foldl write fs wr) = dom fs ∪ list_to_set wr.*1.
Proof.
  revert fs. induction wr as [|[q a] wr IH]; intros fs; simpl.
  - by rewrite (right_id_L ∅ (∪)).
  - rewrite IH. unfold write. simpl.
    by rewrite dom_insert_L, (comm_L (∪) {[q]}), (assoc_L (∪)).
Qed.



(** ** The crew of the program *)

Lemma rankyx_output_files :
  map output_file (tasks rankyx_crew)
  = [ "./ai-agent-output/step_1_suggested_job_search_queries.json";
      "./ai-agent-output/step_2_job_search_results.json";
      "./ai-agent-output/step_3_extracted_jobs.json";
      "./ai-agent-output/step_4_recruitment_report.html" ].
Proof. reflexivity. Qed.

Lemma rankyx_output_files_NoDup : NoDup (map output_file (tasks rankyx_crew)).
Proof. rewrite rankyx_output_files. apply (bool_decide_unpack _). by vm_compute. Qed.



Lemma find_tool_singleton name t tl :
  find_tool name [t] = Some tl -> name = tool_name t /\ tl = t.
Proof.
  unfold find_tool. simpl. destruct (String.eqb_spec (tool_name t) name); [|done].
  by intros [= <-].
Qed.

(** A call on the list of [tool_calls] that raises ends the reasoning there:
    with what the call raised, in the world the call left, and nothing is
    called after it. *)
Lemma tool_calls_raised stage allowed plan : forall w name arg w0 t x w1,
  (name, arg, w0) ∈ tool_calls allowed plan w ->
  find_tool name allowed = Some t ->
  func t arg w0 = (inl x, w1) ->
  exists calls,
    run_reasoning stage allowed plan w = (inl x, w1, calls ++ [ToolRaised stage name x]).
Proof.
  induction plan as [raw|nm a k IH]; intros w name arg w0 t x w1 Hin Hfind Hraise; simpl in *.
  - by apply elem_of_nil in Hin.
  - destruct (find_tool nm allowed) as [t'|] eqn:Hnm; [|by eapply IH].
    apply elem_of_cons in Hin as [[= -> -> ->]|Hin].
    + rewrite Hnm in Hfind. injection Hfind as ->. rewrite Hraise.
      by exists [ToolCalled stage nm a].
    + destruct (func t' a w) as [[y|payload] w'] eqn:Hcall; [by apply elem_of_nil in Hin|].
      destruct (IH payload w' name arg w0 t x w1 Hin Hfind Hraise) as [calls ->].
      by exists (ToolCalled stage nm a :: calls).
Qed.

Lemma tool_calls_allowed allowed plan : forall w name arg w0,
  (name, arg, w0) ∈ tool_calls allowed plan w ->
  exists t, find_tool name allowed = Some t.
Proof.
  induction plan as [raw|nm a k IH]; intros w name arg w0 Hin; simpl in *.
  - by apply elem_of_nil in Hin.
  - destruct (find_tool nm allowed) as [t'|] eqn:Hnm; [|by eapply IH].
    apply elem_of_cons in Hin as [[= -> -> ->]|Hin]; [by exists t'|].
    destruct (func t' a w) as [[y|payload] w']; [by apply elem_of_nil in Hin|].
    by eapply IH.
Qed.

Lemma execute_tasks_cons s inputs t ts r :
  execute_tasks s inputs (t :: ts) r
  = match state (execute_task s inputs t r) with
    | FAILED _ _ => execute_task s inputs t r
    | _ => execute_tasks (S s) inputs ts (execute_task s inputs t r)
    end.
Proof. reflexivity. Qed.

(** A run of the crew in whose log a tool raised at stage 2. *)
Lemma stage_2_tool_raised inputs fs w name x :
  let r := kickoff rankyx_crew inputs fs w in
  ToolRaised 2 name x ∈ log r ->
  name = "search_engine_tool"
  /\ (exists query w0 w1, search_client_search query w0 = (inl x, w1))
  /\ state r = FAILED 2 (CollaboratorError x)
  /\ (forall n p a, (2 <= n)%nat -> Written n p a ∉ log r)
  /\ (forall n req, (2 < n)%nat -> Invoked n req ∉ log r)
  /\ files r !! output_file scraping_task = fs !! output_file scraping_task
  /\ files r !! output_file recruitment_report_author_task
     = fs !! output_file recruitment_report_author_task
  /\ length (context r) = 1%nat.
Proof.
  intros r Hin.
  destruct (kickoff_trace rankyx_crew inputs fs w) as (tr & wr & Htr & Hlog & Hfiles & Hctx).
  fold r in Htr, Hlog, Hfiles, Hctx. rewrite Hlog in *.
  destruct (crew_trace_tool_raised _ _ _ _ _ _ _ Htr 2%nat name x Hin)
    as (Hst & Hw & Hi & _ & Hlen & t & tl & arg & w0 & w1 & Ht & Hf & Hr).
  destruct (crew_trace_order _ _ _ _ _ _ _ Htr) as (_ & _ & _ & Hwr & _).
  rewrite Hlen in Hwr. simpl in Ht, Hlen, Hwr. injection Ht as <-.
  apply find_tool_singleton in Hf as [-> ->]. simpl in Hr.
  split; [done|]. split; [by exists arg, w0, w1|]. split; [done|].
  split; [done|]. split; [done|].
  rewrite Hfiles, Hctx, length_fmap, Hlen.
  split; [|split; [|done]]; apply foldl_write_notin; rewrite Hwr;
    apply (bool_decide_unpack _); by vm_compute.
Qed.

(** C5: the search tool is one call of the search provider and nothing
    else, so what the provider returns or raises for a query is what the
    tool returns or raises, each time it is asked.  Take a run in which
    stage 1 passed and the stage-2 agent settled on a reasoning [plan]: if
    the search provider raises [x] on any of the calls that this reasoning
    makes, then the run ends [FAILED] at stage 2 with [x] itself, in the
    world that call left (nothing was called again), stage 1's file and
    context are as stage 1 left them, stages 3 and 4 are not invoked, and
    nothing is written for stage 2, 3 or 4.  Conversely, a tool failure
    logged at stage 2 is always one raised by the search provider, and the
    run has ended there in the same way. *)
Theorem search_failure_fails_the_run :
  (forall query w, search_engine_tool query w = search_client_search query w)
  /\ (forall inputs fs w plan w1 name query w2 x w3,
        let r0 := {| state := NOT_STARTED; context := []; files := fs; log := [];
                     world := w |} in
        let r1 := execute_task 1 inputs search_queries_recommendation_task r0 in
        let r := kickoff rankyx_crew inputs fs w in
        state r1 = RUNNING 1 ->
        basic_llm (request_of search_engine_task inputs (context r1)) (world r1)
        = (inr plan, w1) ->
        (name, query, w2) ∈ tool_calls (tools search_engine_agent) plan w1 ->
        search_client_search query w2 = (inl x, w3) ->
        state r = FAILED 2 (CollaboratorError x)
        /\ world r = w3
        /\ ToolRaised 2 "search_engine_tool" x ∈ log r
        /\ files r = files r1
        /\ context r = context r1
        /\ (forall n p a, (2 <= n)%nat -> Written n p a ∉ log r)
        /\ (forall n req, (2 < n)%nat -> Invoked n req ∉ log r)
        /\ files r !! output_file search_engine_task = fs !! output_file search_engine_task
        /\ files r !! output_file scraping_task = fs !! output_file scraping_task
        /\ files r !! output_file recruitment_report_author_task
           = fs !! output_file recruitment_report_author_task)
  /\ (forall inputs fs w name x,
        let r := kickoff rankyx_crew inputs fs w in
        ToolRaised 2 name x ∈ log r ->
        name = "search_engine_tool"
        /\ (exists query w2 w3, search_client_search query w2 = (inl x, w3))
        /\ state r = FAILED 2 (CollaboratorError x)
        /\ (forall n p a, (2 <= n)%nat -> Written n p a ∉ log r)
        /\ (forall n req, (2 < n)%nat -> Invoked n req ∉ log r)
        /\ files r !! output_file scraping_task = fs !! output_file scraping_task
        /\ files r !! output_file recruitment_report_author_task
           = fs !! output_file recruitment_report_author_task
        /\ length (context r) = 1%nat).
Proof.
  split; [done|]. split.
  - intros inputs fs w plan w1 name query w2 x w3 r0 r1 r Hpassed Hllm Hcall Hraise.
    destruct (tool_calls_allowed _ _ _ _ _ _ Hcall) as [t Hfind].
    pose proof Hfind as Ht. apply find_tool_singleton in Ht as [-> ->].
    destruct (tool_calls_raised 2 _ _ _ _ _ _ _ _ _ Hcall Hfind Hraise) as [calls Hrun].
    assert (r = stage_failed r1 2
                  (Invoked 2 (request_of search_engine_task inputs (context r1))
                     :: calls ++ [ToolRaised 2 "search_engine_tool" x])
                  w3 (CollaboratorError x)) as Hr.
    { unfold r, kickoff. change (process rankyx_crew) with sequential. cbv iota.
      change (tasks rankyx_crew)
        with [search_queries_recommendation_task; search_engine_task; scraping_task;
              recruitment_report_author_task].
      rewrite execute_tasks_cons. fold r0. fold r1. rewrite Hpassed.
      rewrite execute_tasks_cons.
      assert (execute_task 2 inputs search_engine_task r1
              = stage_failed r1 2
                  (Invoked 2 (request_of search_engine_task inputs (context r1))
                     :: calls ++ [ToolRaised 2 "search_engine_tool" x])
                  w3 (CollaboratorError x)) as ->; [|done].
      unfold execute_task.
      change (llm (agent search_engine_task)) with basic_llm. rewrite Hllm.
      change (tools (agent search_engine_task)) with (tools search_engine_agent).
      by rewrite Hrun. }
    assert (ToolRaised 2 "search_engine_tool" x ∈ log r) as Hev.
    { rewrite Hr. simpl. solve_mem. }
    destruct (stage_2_tool_raised inputs fs w _ _ Hev)
      as (_ & _ & _ & Hw & Hi & H3 & H4 & _).
    fold r in Hw, Hi, H3, H4.
    split; [by rewrite Hr|]. split; [by rewrite Hr|]. split; [done|].
    split; [by rewrite Hr|]. split; [by rewrite Hr|]. split; [done|]. split; [done|].
    split; [|done].
    destruct (kickoff_trace rankyx_crew inputs fs w)
      as (tr & wr & Htr & Hlog & Hfiles & Hctx).
    fold r in Htr, Hlog, Hfiles, Hctx. rewrite Hlog in Hev.
    destruct (crew_trace_tool_raised _ _ _ _ _ _ _ Htr 2%nat _ x Hev)
      as (_ & _ & _ & _ & Hlen & _).
    destruct (crew_trace_order _ _ _ _ _ _ _ Htr) as (_ & _ & _ & Hwr & _).
    rewrite Hlen in Hwr. simpl in Hwr.
    rewrite Hfiles. apply foldl_write_notin. rewrite Hwr.
    apply (bool_decide_unpack _). by vm_compute.
  - intros inputs fs w name x r Hin.
    exact (stage_2_tool_raised inputs fs w name x Hin).
Qed.

(** C9: the four tasks write to four fixed, distinct paths, whatever the
    parameters and whatever was run before.  A run writes nowhere else, and
    a second run never removes a file of the first.  When both runs
    complete, the second leaves the same set of files as the first, and each
    of the four files holds exactly the artifact of the second run's stage:
    it was overwritten, not added to. *)
Theorem rerun_overwrites_the_same_files :
  forall inputs fs w,
    let r1 := kickoff rankyx_crew inputs fs w in
    let r2 := kickoff rankyx_crew inputs (files r1) (world r1) in
    let paths := map output_file (tasks rankyx_crew) in
    paths = [ "./ai-agent-output/step_1_suggested_job_search_queries.json";
              "./ai-agent-output/step_2_job_search_results.json";
              "./ai-agent-output/step_3_extracted_jobs.json";
              "./ai-agent-output/step_4_recruitment_report.html" ]
    /\ dom (files r1) ⊆ dom fs ∪ list_to_set paths
    /\ dom (files r1) ⊆ dom (files r2)
    /\ (state r1 = COMPLETED -> state r2 = COMPLETED ->
        dom (files r1) = dom fs ∪ list_to_set paths
        /\ dom (files r2) = dom (files r1)
        /\ (forall i p, paths !! i = Some p ->
              is_Some (context r2 !! i) /\ files r2 !! p = context r2 !! i)).
Proof.
  intros inputs fs w r1 r2 paths. split; [done|].
  destruct (kickoff_trace rankyx_crew inputs fs w)
    as (tr1 & wr1 & Htr1 & _ & Hfiles1 & _).
  destruct (kickoff_trace rankyx_crew inputs (files r1) (world r1))
    as (tr2 & wr2 & Htr2 & _ & Hfiles2 & Hctx2).
  fold r1 in Htr1, Hfiles1. fold r2 in Htr2, Hfiles2, Hctx2.
  destruct (crew_trace_order _ _ _ _ _ _ _ Htr1) as (k1 & _ & _ & Hwr1 & Hst1).
  destruct (crew_trace_order _ _ _ _ _ _ _ Htr2) as (k2 & _ & _ & Hwr2 & Hst2).
  assert (forall n, (list_to_set (map output_file (take n (tasks rankyx_crew))) : gset string)
                    ⊆ list_to_set paths) as Hsub.
  { intros n p Hp. apply elem_of_list_to_set in Hp. apply elem_of_list_to_set.
    apply list_elem_of_In in Hp. apply list_elem_of_In. unfold paths.
    apply in_map_iff in Hp as (t & <- & Ht). apply in_map.
    apply list_elem_of_In. apply (subseteq_take n). by apply list_elem_of_In. }
  rewrite Hfiles2, Hfiles1, !foldl_write_dom, Hwr1, Hwr2.
  split; [apply union_mono_l, Hsub|]. split; [apply union_subseteq_l|].
  intros Hc1 Hc2. rewrite Hc1 in Hst1. rewrite Hc2 in Hst2.
  destruct Hst1 as [-> Hl1]. destruct Hst2 as [-> Hl2].
  rewrite Hl1, Hl2, !firstn_all. fold paths.
  split; [done|]. split.
  { rewrite <- (assoc_L (∪)). by rewrite (idemp_L (∪) (list_to_set paths)). }
  intros i p Hp.
  assert (wr2.*1 = paths) as Hpaths by (by rewrite Hwr2, Hl2, firstn_all).
  assert (exists a, wr2 !! i = Some (p, a)) as [a Ha].
  { rewrite <- Hpaths in Hp. apply list_lookup_fmap_Some in Hp as ([q a] & -> & Hq).
    by exists a. }
  rewrite Hctx2, list_lookup_fmap, Ha. simpl. split; [by eexists|].
  rewrite <- Hfiles1. apply foldl_write_in.
  - rewrite Hpaths. apply rankyx_output_files_NoDup.
  - by eapply list_elem_of_lookup_2.
Qed.


(** C8 (as the program has it): [__main__] passes one bundle of four
    parameters in which the job titles are a single string, country and
    language are strings and the number of queries is a positive integer
    equal to, so not above, the cap [NUM_QUERIES]; the bundle is given once,
    to [kickoff], and every stage of the run is invoked with it. *)
Theorem main_parameter_bundle :
  map fst main_inputs = ["jobs_titles"; "country_name"; "no_keywords"; "language"]
  /\ dict_get "jobs_titles" main_inputs = Some (JStr "AI/ML Engineer")
  /\ dict_get "no_keywords" main_inputs = Some (JInt (Z.of_nat NUM_QUERIES))
  /\ bundle_as_passed NUM_QUERIES main_inputs = true
  /\ (forall fs w n req, Invoked n req ∈ log (main fs w) -> req_inputs req = main_inputs).
Proof.
  split; [done|]. split; [done|]. split; [done|]. split; [done|].
  intros fs w n req Hin. unfold main in Hin.
  destruct (kickoff_trace rankyx_crew main_inputs fs w) as (tr & wr & Htr & Hlog & _).
  rewrite Hlog in Hin.
  by destruct (crew_trace_request _ _ _ _ _ _ _ Htr n req Hin) as (t & _ & _ & ->).
Qed.

(** * More on the models: which outputs they accept *)

Lemma vbind_Valid {A B} (r : validation A) (k : A -> validation B) b :
  vbind r k = Valid b <-> exists a, r = Valid a /\ k a = Valid b.
Proof.
  destruct r as [a|e]; simpl; split.
  - intros Hk. by exists a.
  - by intros (a' & [= <-] & Hk).
  - done.
  - by intros (a' & [=] & _).
Qed.

Lemma vmap_Valid {A B} (f : A -> B) (r : validation A) b :
  vmap f r = Valid b <-> exists a, r = Valid a /\ b = f a.
Proof.
  unfold vmap. rewrite vbind_Valid. split; intros (a & Hr & Hb); exists a.
  - by injection Hb as <-.
  - by subst.
Qed.

Lemma under_Valid {A} i (r : validation A) a : under i r = Valid a <-> r = Valid a.
Proof. by destruct r. Qed.

Lemma check_items_Valid mn mx y0 y : check_items mn mx y0 = Valid y -> y = y0.
Proof.
  destruct y0; simpl; try by intros [= <-].
  destruct (fewer_than _ _); [done|]. destruct (more_than _ _); [done|]. by intros [= <-].
Qed.

(** A field is valid when its member is, within the field's bounds, or when
    the member is missing and the field has a default. *)
Lemma validate_field_Valid v members name d mn mx y :
  validate_field v members name d mn mx = Valid y <->
  match dict_get name members with
  | Some x => exists y0, v x = Valid y0 /\ check_items mn mx y0 = Valid y
  | None => d = Some y
  end.
Proof.
  unfold validate_field. rewrite under_Valid.
  destruct (dict_get name members) as [x|].
  - apply vbind_Valid.
  - destruct d as [d|]; split; try done; by intros [= <-].
Qed.

Lemma validate_str_Valid raw y :
  validate t_str raw = Valid y <-> exists s, raw = JStr s /\ y = VStr s.
Proof.
  destruct raw; simpl; split; try done; try by intros (? & [=] & _).
  - intros [= <-]. by eexists.
  - by intros (s' & [= <-] & ->).
Qed.

Lemma validate_int_Valid raw y :
  validate t_int raw = Valid y <-> exists z, lax_int raw = Some z /\ y = VInt z.
Proof.
  unfold validate. destruct (lax_int raw) as [z|]; split; try done.
  - intros [= <-]. by exists z.
  - by intros (z' & [= <-] & ->).
  - by intros (? & [=] & _).
Qed.

Lemma validate_items_Forall2 f items : forall i vs,
  validate_items f i items = Valid vs <-> Forall2 (fun x v => f x = Valid v) items vs.
Proof.
  induction items as [|x rest IH]; intros i vs; simpl.
  - split; [intros [= <-]; constructor|by intros ->%Forall2_nil_inv_l].
  - rewrite vbind_Valid. split.
    + intros (v & Hv & Hrest). apply under_Valid in Hv.
      apply vbind_Valid in Hrest as (ws & Hws & [= <-]).
      constructor; [done|]. by eapply IH.
    + intros (v & ws & Hv & Hws & ->)%Forall2_cons_inv_l.
      exists v. split; [by apply under_Valid|].
      apply vbind_Valid. exists ws. split; [by eapply IH|done].
Qed.

Lemma validate_list_Valid ann raw y :
  validate (t_List ann) raw = Valid y <->
  exists items vs,
    raw = JList items /\ Forall2 (fun x v => validate ann x = Valid v) items vs
    /\ y = VList vs.
Proof.
  destruct raw as [| | | | |items|]; try (split; [done|by intros (? & ? & [=] & _)]).
  rewrite validate_list_unfold, vmap_Valid. split.
  - intros (vs & Hvs & ->). exists items, vs. by rewrite <- validate_items_Forall2.
  - intros (items' & vs & [= <-] & Hvs & ->). exists vs.
    by rewrite validate_items_Forall2.
Qed.

Lemma validate_model_Valid cls fields raw y :
  validate (t_Model cls fields) raw = Valid y <->
  exists members attrs,
    raw = JDict members /\ validate_fields members fields = Valid attrs
    /\ y = VModel cls attrs.
Proof.
  destruct raw as [| | | | | |members]; try (split; [done|by intros (? & ? & [=] & _)]).
  rewrite validate_model_unfold, vmap_Valid. split.
  - intros (attrs & Hattrs & ->). by exists members, attrs.
  - intros (members' & attrs & [= <-] & Hattrs & ->). by exists attrs.
Qed.

(** A required [str] field is valid exactly when its member is a string. *)
Lemma str_field_Valid members name y :
  validate_field (validate t_str) members name None None None = Valid y <->
  exists s, dict_get name members = Some (JStr s) /\ y = VStr s.
Proof.
  rewrite validate_field_Valid. destruct (dict_get name members) as [x|].
  - split.
    + intros (y0 & (s & -> & ->)%validate_str_Valid & [= <-]). by exists s.
    + intros (s & [= ->] & ->). exists (VStr s). by rewrite validate_str_unfold.
  - split; [done|by intros (? & [=] & _)].
Qed.

Lemma strs_Forall2 items vs :
  Forall2 (fun x v => validate t_str x = Valid v) items vs <->
  exists qs, items = map JStr qs /\ vs = map VStr qs.
Proof.
  split.
  - induction 1 as [|x v items vs (s & -> & ->)%validate_str_Valid _ (qs & -> & ->)].
    + by exists [].
    + by exists (s :: qs).
  - intros (qs & -> & ->). induction qs as [|q qs IH]; constructor; done.
Qed.

Lemma str_field_intro members name s :
  dict_get name members = Some (JStr s) ->
  validate_field (validate t_str) members name None None None = Valid (VStr s).
Proof. intros Hget. apply str_field_Valid. by exists s. Qed.

(** From [validate_fields members fs = Valid attrs], one hypothesis per field
    of [fs]; then the string fields as the strings they hold. *)
Ltac split_fields H :=
  cbn [validate_fields] in H;
  lazymatch type of H with
  | Valid _ = Valid _ => injection H as <-
  | _ =>
      let Hf := fresh "Hf" in
      let Hr := fresh "Hr" in
      apply vbind_Valid in H as (? & Hf & H);
      apply vbind_Valid in H as (? & Hr & H);
      injection H as <-; split_fields Hr
  end.

Ltac str_fields :=
  repeat match goal with
         | Hf : validate_field (validate t_str) _ _ None None None = Valid _ |- _ =>
             apply str_field_Valid in Hf as (? & Hf & ->)
         end.

(** X1: a search result is accepted exactly when it is a dict whose [title],
    [url], [content] and [search_query] are strings; the instance holds
    these four strings and nothing else. *)
Theorem search_result_accepted_iff :
  forall raw v,
    validate SingleSearchResult raw = Valid v <->
    exists members title url content search_query,
      raw = JDict members
      /\ dict_get "title" members = Some (JStr title)
      /\ dict_get "url" members = Some (JStr url)
      /\ dict_get "content" members = Some (JStr content)
      /\ dict_get "search_query" members = Some (JStr search_query)
      /\ v = VModel "SingleSearchResult"
               [ ("title", VStr title); ("url", VStr url);
                 ("content", VStr content); ("search_query", VStr search_query) ].
Proof.
  intros raw v. unfold SingleSearchResult. rewrite validate_model_Valid. split.
  - intros (members & attrs & -> & H & ->). unfold required in H.
    split_fields H. str_fields. eexists _, _, _, _, _. repeat split; done.
  - intros (members & t & u & c & q & -> & Ht & Hu & Hc & Hq & ->).
    eexists _, _. split; [done|]. split; [|done].
    cbn [validate_fields]. unfold required.
    by rewrite (str_field_intro _ _ _ Ht), (str_field_intro _ _ _ Hu),
      (str_field_intro _ _ _ Hc), (str_field_intro _ _ _ Hq).
Qed.

(** X2: a job specification is accepted exactly when it is a dict whose
    [specification_name] and [specification_value] are strings. *)
Theorem job_spec_accepted_iff :
  forall raw v,
    validate JobSpec raw = Valid v <->
    exists members name value,
      raw = JDict members
      /\ dict_get "specification_name" members = Some (JStr name)
      /\ dict_get "specification_value" members = Some (JStr value)
      /\ v = VModel "JobSpec"
               [ ("specification_name", VStr name); ("specification_value", VStr value) ].
Proof.
  intros raw v. unfold JobSpec. rewrite validate_model_Valid. split.
  - intros (members & attrs & -> & H & ->). unfold required in H.
    split_fields H. str_fields. eexists _, _, _. repeat split; done.
  - intros (members & n & x & -> & Hn & Hx & ->).
    eexists _, _. split; [done|]. split; [|done].
    cbn [validate_fields]. unfold required.
    by rewrite (str_field_intro _ _ _ Hn), (str_field_intro _ _ _ Hx).
Qed.

(** A required list field is valid exactly when its member is a list whose
    items all validate and whose length is within the field's bounds. *)
Lemma list_field_Valid ann members name mn mx y :
  validate_field (validate (t_List ann)) members name None mn mx = Valid y <->
  exists items vs,
    dict_get name members = Some (JList items)
    /\ Forall2 (fun x v => validate ann x = Valid v) items vs
    /\ fewer_than mn (length items) = false
    /\ more_than mx (length items) = false
    /\ y = VList vs.
Proof.
  rewrite validate_field_Valid. destruct (dict_get name members) as [x|].
  2:{ split; [done|by intros (? & ? & [=] & _)]. }
  split.
  - intros (y0 & (items & vs & -> & Hvs & ->)%validate_list_Valid & Hc).
    exists items, vs. split; [done|]. split; [done|].
    rewrite (Forall2_length _ _ _ Hvs). simpl in Hc.
    destruct (fewer_than mn (length vs)); [done|].
    destruct (more_than mx (length vs)); [done|]. by injection Hc as <-.
  - intros (items & vs & [= ->] & Hvs & Hmin & Hmax & ->).
    exists (VList vs). split.
    + apply validate_list_Valid. by exists items, vs.
    + simpl. by rewrite <- (Forall2_length _ _ _ Hvs), Hmin, Hmax.
Qed.

(** X3: the stage-2 model accepts a raw output exactly when its [results]
    are a list of at least 20 items that each validate as a search result;
    there is no upper bound, and the instance lists the validated results in
    the order given. *)
Theorem all_search_results_accepted_iff :
  forall raw v,
    validate AllSearchResults raw = Valid v <->
    exists members items results,
      raw = JDict members
      /\ dict_get "results" members = Some (JList items)
      /\ Forall2 (fun x r => validate SingleSearchResult x = Valid r) items results
      /\ (20 <= length items)%nat
      /\ v = VModel "AllSearchResults" [("results", VList results)].
Proof.
  intros raw v. unfold AllSearchResults. rewrite validate_model_Valid. split.
  - intros (members & attrs & -> & H & ->). split_fields H.
    apply list_field_Valid in Hf as (items & vs & Hget & Hvs & Hmin & _ & ->).
    exists members, items, vs. simpl in Hmin. apply Nat.ltb_ge in Hmin. done.
  - intros (members & items & results & -> & Hget & Hvs & Hlen & ->).
    eexists _, _. split; [done|]. split; [|done]. cbn [validate_fields].
    assert (validate_field (validate (t_List SingleSearchResult)) members "results"
              None (Some 20%nat) None = Valid (VList results)) as ->; [|done].
    apply list_field_Valid. exists items, results. repeat split; try done.
    simpl. by apply Nat.ltb_ge.
Qed.

Lemma all_extracted_jobs_shape :
  forall raw v,
    validate AllExtractedJobs raw = Valid v <->
    exists members items jobs,
      raw = JDict members
      /\ dict_get "jobs" members = Some (JList items)
      /\ Forall2 (fun x j => validate SingleExtractedJob x = Valid j) items jobs
      /\ v = VModel "AllExtractedJobs" [("jobs", VList jobs)].
Proof.
  intros raw v. unfold AllExtractedJobs. rewrite validate_model_Valid. split.
  - intros (members & attrs & -> & H & ->). unfold required in H. split_fields H.
    apply list_field_Valid in Hf as (items & vs & Hget & Hvs & _ & _ & ->).
    by exists members, items, vs.
  - intros (members & items & jobs & -> & Hget & Hvs & ->).
    eexists _, _. split; [done|]. split; [|done]. cbn [validate_fields]. unfold required.
    assert (validate_field (validate (t_List SingleExtractedJob)) members "jobs"
              None None None = Valid (VList jobs)) as ->; [|done].
    apply list_field_Valid. by exists items, jobs.
Qed.

(** X4: the stage-3 model accepts a raw output exactly when its [jobs] are a
    list, of any length, whose items each validate as a job; one item that
    does not validate rejects the whole output. *)
Theorem all_extracted_jobs_accepted_iff :
  forall raw v,
    validate AllExtractedJobs raw = Valid v <->
    exists members items jobs,
      raw = JDict members
      /\ dict_get "jobs" members = Some (JList items)
      /\ Forall2 (fun x j => validate SingleExtractedJob x = Valid j) items jobs
      /\ v = VModel "AllExtractedJobs" [("jobs", VList jobs)].
Proof. exact all_extracted_jobs_shape. Qed.

(** X5: the stage-1 model accepts a raw output only when its [queries] are a
    list of 1 to [NUM_QUERIES] strings, and then as it is: a missing key, a
    value that is no list, or one item that is no string rejects it. *)
Theorem suggested_queries_accepted_iff :
  forall raw v,
    validate SuggestedSearchQueries raw = Valid v <->
    exists members qs,
      raw = JDict members
      /\ dict_get "queries" members = Some (JList (map JStr qs))
      /\ (1 <= length qs <= NUM_QUERIES)%nat
      /\ v = VModel "SuggestedSearchQueries" [("queries", VList (map VStr qs))].
Proof.
  intros raw v. unfold SuggestedSearchQueries. rewrite validate_model_Valid. split.
  - intros (members & attrs & -> & H & ->). split_fields H.
    apply list_field_Valid in Hf as (items & vs & Hget & Hvs & Hmin & Hmax & ->).
    apply strs_Forall2 in Hvs as (qs & -> & ->). rewrite length_map in Hmin, Hmax.
    simpl in Hmin, Hmax. apply Nat.ltb_ge in Hmin, Hmax. by exists members, qs.
  - intros (members & qs & -> & Hget & [Hmin Hmax] & ->).
    eexists _, _. split; [done|]. split; [|done]. cbn [validate_fields].
    assert (validate_field (validate (t_List t_str)) members "queries"
              None (Some 1%nat) (Some NUM_QUERIES) = Valid (VList (map VStr qs))) as ->;
      [|done].
    apply list_field_Valid. exists (map JStr qs), (map VStr qs).
    rewrite length_map. simpl. repeat split; try done.
    + apply strs_Forall2. by exists qs.
    + by apply Nat.ltb_ge.
    + by apply Nat.ltb_ge.
Qed.

(** A required [int] field is valid exactly when its member converts. *)
Lemma int_field_Valid members name y :
  validate_field (validate t_int) members name None None None = Valid y <->
  exists x z, dict_get name members = Some x /\ lax_int x = Some z /\ y = VInt z.
Proof.
  rewrite validate_field_Valid. destruct (dict_get name members) as [x|].
  - split.
    + intros (y0 & (z & Hz & ->)%validate_int_Valid & [= <-]). by exists x, z.
    + intros (x' & z & [= <-] & Hz & ->). exists (VInt z). split; [|done].
      apply validate_int_Valid. by exists z.
  - split; [done|by intros (? & ? & [=] & _)].
Qed.

(** [salary: str = None]: a missing member gives [None]; a member that is
    there has to be a string. *)
Lemma salary_field_Valid members y :
  validate_field (validate t_str) members "salary" (Some VNone) None None = Valid y <->
  (dict_get "salary" members = None /\ y = VNone)
  \/ (exists s, dict_get "salary" members = Some (JStr s) /\ y = VStr s).
Proof.
  rewrite validate_field_Valid. destruct (dict_get "salary" members) as [x|].
  - split.
    + intros (y0 & (s & -> & ->)%validate_str_Valid & [= <-]). right. by exists s.
    + intros [[[=] _]|(s & [= ->] & ->)]. exists (VStr s).
      by rewrite validate_str_unfold.
  - split.
    + intros [= <-]. by left.
    + by intros [[_ ->]|(? & [=] & _)].
Qed.

Lemma extracted_job_shape :
  forall raw v,
    validate SingleExtractedJob raw = Valid v <->
    exists members page_url job_title company_name location job_posting_url
           job_posting_date salary spec_items job_specs rank_raw rank notes,
      raw = JDict members
      /\ dict_get "page_url" members = Some (JStr page_url)
      /\ dict_get "job_title" members = Some (JStr job_title)
      /\ dict_get "company_name" members = Some (JStr company_name)
      /\ dict_get "location" members = Some (JStr location)
      /\ dict_get "job_posting_url" members = Some (JStr job_posting_url)
      /\ dict_get "job_posting_date" members = Some (JStr job_posting_date)
      /\ ((dict_get "salary" members = None /\ salary = VNone)
          \/ (exists s, dict_get "salary" members = Some (JStr s) /\ salary = VStr s))
      /\ dict_get "job_specs" members = Some (JList spec_items)
      /\ Forall2 (fun x s => validate JobSpec x = Valid s) spec_items job_specs
      /\ dict_get "agent_recommendation_rank" members = Some rank_raw
      /\ lax_int rank_raw = Some rank
      /\ dict_get "agent_recommendation_notes" members = Some (JList (map JStr notes))
      /\ v = VModel "SingleExtractedJob"
               [ ("page_url", VStr page_url);
                 ("job_title", VStr job_title);
                 ("company_name", VStr company_name);
                 ("location", VStr location);
                 ("job_posting_url", VStr job_posting_url);
                 ("job_posting_date", VStr job_posting_date);
                 ("salary", salary);
                 ("job_specs", VList job_specs);
                 ("agent_recommendation_rank", VInt rank);
                 ("agent_recommendation_notes", VList (map VStr notes)) ].
Proof.
  intros raw v. unfold SingleExtractedJob. rewrite validate_model_Valid. split.
  - intros (members & attrs & -> & H & ->). unfold required, defaulted in H.
    split_fields H. str_fields.
    match goal with
    | Hs : validate_field _ _ "salary" _ _ _ = Valid _ |- _ =>
        apply salary_field_Valid in Hs
    end.
    match goal with
    | Hs : validate_field _ _ "job_specs" _ _ _ = Valid _ |- _ =>
        apply list_field_Valid in Hs as (spec_items & specs & Hspecs & Hall & _ & _ & ->)
    end.
    match goal with
    | Hs : validate_field _ _ "agent_recommendation_rank" _ _ _ = Valid _ |- _ =>
        apply int_field_Valid in Hs as (rank_raw & rank & Hrank & Hint & ->)
    end.
    match goal with
    | Hs : validate_field _ _ "agent_recommendation_notes" _ _ _ = Valid _ |- _ =>
        apply list_field_Valid in Hs as (note_items & ns & Hnotes & Hns & _ & _ & ->)
    end.
    apply strs_Forall2 in Hns as (notes & -> & ->).
    eexists members, _, _, _, _, _, _, _, spec_items, specs, rank_raw, rank, notes.
    repeat split; done.
  - intros (members & s1 & s2 & s3 & s4 & s5 & s6 & salary & spec_items & specs
            & rank_raw & rank & notes & -> & H1 & H2 & H3 & H4 & H5 & H6 & Hsal
            & Hspecs & Hall & Hrank & Hint & Hnotes & ->).
    eexists _, _. split; [done|]. split; [|done].
    cbn [validate_fields]. unfold required, defaulted.
    rewrite (str_field_intro _ _ _ H1), (str_field_intro _ _ _ H2),
      (str_field_intro _ _ _ H3), (str_field_intro _ _ _ H4),
      (str_field_intro _ _ _ H5), (str_field_intro _ _ _ H6).
    rewrite (proj2 (salary_field_Valid members salary) Hsal).
    assert (validate_field (validate (t_List JobSpec)) members "job_specs"
              None None None = Valid (VList specs)) as ->.
    { apply list_field_Valid. by exists spec_items, specs. }
    assert (validate_field (validate t_int) members "agent_recommendation_rank"
              None None None = Valid (VInt rank)) as ->.
    { apply int_field_Valid. by exists rank_raw, rank. }
    assert (validate_field (validate (t_List t_str)) members "agent_recommendation_notes"
              None None None = Valid (VList (map VStr notes))) as ->; [|done].
    apply list_field_Valid. exists (map JStr notes), (map VStr notes).
    repeat split; try done. apply strs_Forall2. by exists notes.
Qed.

(** X6: a job record is accepted exactly when it is a dict in which the six
    text fields are strings, [job_specs] is a list of valid specifications,
    [agent_recommendation_rank] converts to an integer,
    [agent_recommendation_notes] is a list of strings, and [salary] is
    either missing (the instance then holds [None]) or a string. *)
Theorem extracted_job_accepted_iff :
  forall raw v,
    validate SingleExtractedJob raw = Valid v <->
    exists members page_url job_title company_name location job_posting_url
           job_posting_date salary spec_items job_specs rank_raw rank notes,
      raw = JDict members
      /\ dict_get "page_url" members = Some (JStr page_url)
      /\ dict_get "job_title" members = Some (JStr job_title)
      /\ dict_get "company_name" members = Some (JStr company_name)
      /\ dict_get "location" members = Some (JStr location)
      /\ dict_get "job_posting_url" members = Some (JStr job_posting_url)
      /\ dict_get "job_posting_date" members = Some (JStr job_posting_date)
      /\ ((dict_get "salary" members = None /\ salary = VNone)
          \/ (exists s, dict_get "salary" members = Some (JStr s) /\ salary = VStr s))
      /\ dict_get "job_specs" members = Some (JList spec_items)
      /\ Forall2 (fun x s => validate JobSpec x = Valid s) spec_items job_specs
      /\ dict_get "agent_recommendation_rank" members = Some rank_raw
      /\ lax_int rank_raw = Some rank
      /\ dict_get "agent_recommendation_notes" members = Some (JList (map JStr notes))
      /\ v = VModel "SingleExtractedJob"
               [ ("page_url", VStr page_url);
                 ("job_title", VStr job_title);
                 ("company_name", VStr company_name);
                 ("location", VStr location);
                 ("job_posting_url", VStr job_posting_url);
                 ("job_posting_date", VStr job_posting_date);
                 ("salary", salary);
                 ("job_specs", VList job_specs);
                 ("agent_recommendation_rank", VInt rank);
                 ("agent_recommendation_notes", VList (map VStr notes)) ].
Proof. exact extracted_job_shape. Qed.

(** * More on the models: round trips *)

(** The instance of a model names its attributes after the fields, in the
    order of the class. *)
Lemma validate_fields_names members fs attrs :
  validate_fields members fs = Valid attrs -> attrs.*1 = map field_name fs.
Proof.
  revert attrs. induction fs as [|[name ann d mn mx] rest IH]; intros attrs; simpl.
  - by intros [= <-].
  - intros (y & _ & (vs & Hvs & [= <-])%vbind_Valid)%vbind_Valid.
    rewrite fmap_cons. simpl. f_equal. by apply IH.
Qed.

Lemma dict_get_dump attrs n y :
  NoDup attrs.*1 -> (n, y) ∈ attrs -> dict_get n (dump_attrs attrs) = Some (model_dump y).
Proof.
  induction attrs as [|[k x] attrs IH]; intros Hnd Hin.
  - by apply elem_of_nil in Hin.
  - rewrite fmap_cons in Hnd. apply NoDup_cons in Hnd as [Hk Hnd]. simpl in Hk.
    simpl. apply elem_of_cons in Hin as [[= -> ->]|Hin].
    + by rewrite String.eqb_refl.
    + destruct (String.eqb_spec k n) as [->|_]; [|by apply IH].
      exfalso. apply Hk. apply list_elem_of_fmap. by exists (n, y).
Qed.

Lemma items_round_trip ann items vs :
  (forall raw v, validate ann raw = Valid v -> validate ann (model_dump v) = Valid v) ->
  Forall2 (fun x v => validate ann x = Valid v) items vs ->
  Forall2 (fun x v => validate ann x = Valid v) (map model_dump vs) vs.
Proof.
  intros Hrt. induction 1 as [|x v items vs Hv _ IH]; simpl; constructor; [|done].
  by eapply Hrt.
Qed.

Lemma fields_round_trip fs :
  Forall (fun f => round_trips (field_ann f)) fs ->
  forallb (fun f => is_required f && plain (field_ann f)) fs = true ->
  forall members attrs members',
    validate_fields members fs = Valid attrs ->
    (forall n y, (n, y) ∈ attrs -> dict_get n members' = Some (model_dump y)) ->
    validate_fields members' fs = Valid attrs.
Proof.
  induction 1 as [|[name ann d mn mx] rest Hrt _ IH]; intros Hplain members attrs members';
    [done|].
  simpl in Hplain. apply andb_true_iff in Hplain as [Hf Hrest].
  apply andb_true_iff in Hf as [Hreq Hann]. destruct d as [d|]; [done|].
  simpl. intros (y & Hy & (vs & Hvs & [= <-])%vbind_Valid)%vbind_Valid Hget.
  apply validate_field_Valid in Hy.
  destruct (dict_get name members) as [x|]; [|done].
  destruct Hy as (y0 & Hy0 & Hc). pose proof (check_items_Valid _ _ _ _ Hc) as ->.
  assert (validate_field (validate ann) members' name None mn mx = Valid y0) as ->.
  { apply validate_field_Valid. rewrite (Hget name y0) by left.
    exists y0. split; [|done]. by apply (Hrt Hann x). }
  simpl. rewrite (IH Hrest members vs members' Hvs); [done|].
  intros n y Hin. apply Hget. by right.
Qed.

(** A plain model gives back the instance it accepted when the instance is
    dumped and validated again. *)
Lemma plain_round_trip t : round_trips t.
Proof.
  induction t as [| |item IH|cls fields IH] using annotation_induction;
    intros Hplain raw v.
  - intros (s & -> & ->)%validate_str_Valid. done.
  - intros (z & Hz & ->)%validate_int_Valid. simpl.
    apply validate_int_Valid. exists z. by rewrite lax_int_exact.
  - intros (items & vs & -> & Hvs & ->)%validate_list_Valid.
    apply validate_list_Valid. exists (map model_dump vs), vs.
    split; [done|]. split; [|done]. eapply items_round_trip; [|done].
    by apply IH.
  - intros (members & attrs & -> & Hattrs & ->)%validate_model_Valid.
    simpl in Hplain. apply andb_true_iff in Hplain as [Hnd Hplain].
    apply bool_decide_eq_true in Hnd.
    apply validate_model_Valid. exists (dump_attrs attrs), attrs.
    split; [done|]. split; [|done].
    eapply fields_round_trip; [done|done|done|].
    intros n y Hin. apply dict_get_dump; [|done].
    by rewrite (validate_fields_names _ _ _ Hattrs).
Qed.

(** X7: the stage-2 model and the record models inside the artifacts give
    back the instance they accepted when it is dumped and validated again;
    so the dict a task keeps of stage 2 is unchanged when read back through
    the model.  (An integer is taken as it is on the way back.) *)
Theorem search_results_round_trip :
  (forall raw v,
      validate SingleSearchResult raw = Valid v ->
      validate SingleSearchResult (model_dump v) = Valid v)
  /\ (forall raw v,
        validate JobSpec raw = Valid v -> validate JobSpec (model_dump v) = Valid v)
  /\ (forall raw v,
        validate AllSearchResults raw = Valid v ->
        validate AllSearchResults (model_dump v) = Valid v)
  /\ (forall raw a,
        to_json AllSearchResults raw = Valid a -> to_json AllSearchResults a = Valid a).
Proof.
  assert (forall raw v,
             validate AllSearchResults raw = Valid v ->
             validate AllSearchResults (model_dump v) = Valid v) as Hrt.
  { apply plain_round_trip. by vm_compute. }
  split; [apply plain_round_trip; by vm_compute|].
  split; [apply plain_round_trip; by vm_compute|]. split; [exact Hrt|].
  intros raw a. unfold to_json.
  destruct (validate AllSearchResults raw) as [v|] eqn:Hv; [|done].
  simpl. intros [= <-]. by rewrite (Hrt raw v Hv).
Qed.

Lemma job_specs_round_trip spec_items specs :
  Forall2 (fun x s => validate JobSpec x = Valid s) spec_items specs ->
  Forall2 (fun x s => validate JobSpec x = Valid s) (map model_dump specs) specs.
Proof. apply items_round_trip. apply plain_round_trip. by vm_compute. Qed.

(** X8: a job that was accepted with a [salary] gives back the same instance
    when it is dumped and validated again; a job that was accepted without
    one does not validate again, because the dump holds [None] for [salary]
    and the field takes a string.  So the dict kept of a stage-3 output in
    which some job has no [salary] does not pass the stage-3 model again. *)
Theorem extracted_job_round_trip_needs_salary :
  (forall raw v,
      validate SingleExtractedJob raw = Valid v ->
      (has_key "salary" raw = true ->
       validate SingleExtractedJob (model_dump v) = Valid v)
      /\ (has_key "salary" raw = false ->
          is_valid (validate SingleExtractedJob (model_dump v)) = false))
  /\ (forall members items item a,
        to_json AllExtractedJobs (JDict members) = Valid a ->
        dict_get "jobs" members = Some (JList items) ->
        item ∈ items -> has_key "salary" item = false ->
        is_valid (to_json AllExtractedJobs a) = false).
Proof.
  assert (forall raw v,
             validate SingleExtractedJob raw = Valid v ->
             (has_key "salary" raw = true ->
              validate SingleExtractedJob (model_dump v) = Valid v)
             /\ (has_key "salary" raw = false ->
                 is_valid (validate SingleExtractedJob (model_dump v)) = false)) as Hjob.
  { intros raw v Hv.
    apply extracted_job_shape in Hv
      as (members & s1 & s2 & s3 & s4 & s5 & s6 & salary & spec_items & specs
          & rank_raw & rank & notes & -> & H1 & H2 & H3 & H4 & H5 & H6 & Hsal
          & Hspecs & Hall & Hrank & Hint & Hnotes & ->).
    simpl. rewrite model_dump_strs. split; intros Hkey.
    - apply bool_decide_eq_true in Hkey as [x Hx].
      destruct Hsal as [[Hnone _]|(s & Hs & ->)]; [by rewrite Hnone in Hx|].
      apply extracted_job_shape.
      eexists _, s1, s2, s3, s4, s5, s6, (VStr s), (map model_dump specs), specs,
        (JInt rank), rank, notes.
      repeat split; try done; try apply lax_int_exact.
      + right. by exists s.
      + by apply (job_specs_round_trip spec_items).
    - apply bool_decide_eq_false in Hkey.
      destruct Hsal as [[Hnone ->]|(s & Hs & ->)]; [|by rewrite Hs in Hkey; destruct Hkey].
      match goal with
      | |- is_valid ?r = false => destruct r as [v'|] eqn:Hv'; [|done]
      end.
      apply extracted_job_shape in Hv'
        as (members' & _ & _ & _ & _ & _ & _ & salary' & _ & _ & _ & _ & _ & [= <-]
            & _ & _ & _ & _ & _ & _ & Hsal' & _).
      by destruct Hsal' as [[[=] _]|(s & [=] & _)]. }
  split; [exact Hjob|].
  intros members items item a Ha Hget Hin Hkey. unfold to_json in *.
  destruct (validate AllExtractedJobs (JDict members)) as [v|] eqn:Hv; [|done].
  simpl in Ha. injection Ha as <-.
  apply all_extracted_jobs_shape in Hv
    as (members' & items' & jobs & [= <-] & Hget' & Hall & ->).
  rewrite Hget in Hget'. injection Hget' as <-.
  rewrite is_valid_vmap.
  destruct (validate AllExtractedJobs _) as [v'|] eqn:Hv'; [|done]. exfalso.
  apply all_extracted_jobs_shape in Hv'
    as (members' & items' & jobs' & [= <-] & [= <-] & Hall' & _).
  apply list_elem_of_lookup in Hin as [i Hi].
  destruct (Forall2_lookup_l _ _ _ _ _ Hall Hi) as (j & Hj & Hitem).
  assert (map model_dump jobs !! i = Some (model_dump j)) as Hdump.
  { change (map model_dump) with (fmap (M:=list) model_dump).
    by rewrite list_lookup_fmap, Hj. }
  destruct (Forall2_lookup_l _ _ _ _ _ Hall' Hdump) as (j' & _ & Hback).
  destruct (Hjob item j Hitem) as [_ Hnot]. specialize (Hnot Hkey).
  by rewrite Hback in Hnot.
Qed.

(** * More on the models: what is kept *)

Lemma dump_attrs_names attrs : map fst (dump_attrs attrs) = attrs.*1.
Proof. induction attrs as [|[k x] attrs IH]; [done|]. simpl. by rewrite IH. Qed.

(** X9: the dict kept of an output that a model accepted has the fields the
    class declares, all of them and in the order of the class, whatever
    other keys the raw output had and in whatever order; for the three task
    models that is the single key [queries], [results] or [jobs]. *)
Theorem artifact_keeps_declared_fields :
  (forall cls fields raw a,
      to_json (t_Model cls fields) raw = Valid a ->
      exists members, a = JDict members /\ map fst members = map field_name fields)
  /\ (forall raw a,
        to_json SuggestedSearchQueries raw = Valid a ->
        exists queries, a = JDict [("queries", queries)])
  /\ (forall raw a,
        to_json AllSearchResults raw = Valid a ->
        exists results, a = JDict [("results", results)])
  /\ (forall raw a,
        to_json AllExtractedJobs raw = Valid a -> exists jobs, a = JDict [("jobs", jobs)]).
Proof.
  assert (forall cls fields raw a,
             to_json (t_Model cls fields) raw = Valid a ->
             exists members, a = JDict members /\ map fst members = map field_name fields)
    as Hkeys.
  { intros cls fields raw a. unfold to_json. rewrite vmap_Valid.
    intros (v & (members & attrs & -> & Hattrs & ->)%validate_model_Valid & ->).
    exists (dump_attrs attrs). split; [done|].
    by rewrite dump_attrs_names, (validate_fields_names _ _ _ Hattrs). }
  assert (forall cls name ann d mn mx raw a,
             to_json (t_Model cls [Field_ name ann d mn mx]) raw = Valid a ->
             exists x, a = JDict [(name, x)]) as Hone.
  { intros cls name ann d mn mx raw a Ha.
    destruct (Hkeys _ _ _ _ Ha) as (members & -> & Hnames).
    destruct members as [|[k x] [|? ?]]; try done. simpl in Hnames.
    injection Hnames as ->. by exists x. }
  split; [exact Hkeys|]. repeat split; intros raw a Ha; by eapply Hone.
Qed.

End Crew.

Arguments state {W} _.
Arguments context {W} _.
Arguments files {W} _.
Arguments log {W} _.
Arguments world {W} _.
Arguments output_file {W} _.

(** * The properties on the scripted world *)

Abbreviation scripted_crew search queries :=
  (rankyx_crew nat search scrape_up plain_schema (scripted_llm queries)).

(** All four stages pass. *)
Abbreviation good_run :=
  (kickoff strict_int nat (scripted_crew search_up one_query) main_inputs ∅ 0%nat).

(** The same again, over the files and the world the first run left. *)
Abbreviation good_rerun :=
  (kickoff strict_int nat (scripted_crew search_up one_query) main_inputs
     (files good_run) (world good_run)).

(** Stage 1 answers an empty list of queries. *)
Abbreviation rejected_run :=
  (kickoff strict_int nat (scripted_crew search_up no_query) main_inputs ∅ 0%nat).

(** The search provider raises on the one search of stage 2, and would
    answer if it were asked again. *)
Abbreviation failed_run :=
  (kickoff strict_int nat (scripted_crew search_transient one_query) main_inputs ∅ 0%nat).

(** No query is rejected; one query is accepted as it is. *)
Lemma suggested_queries_bounds_witness :
  is_valid (validate strict_int SuggestedSearchQueries no_query) = false
  /\ validate strict_int SuggestedSearchQueries one_query
     = Valid (VModel "SuggestedSearchQueries"
                [("queries", VList [VStr "AI engineer jobs Egypt"])]).
Proof.
  destruct (suggested_queries_bounds strict_int) as (_ & Hrej & Hacc). split.
  - apply (Hrej _ []); [reflexivity|]. left. simpl. lia.
  - destruct (Hacc [("queries", JList [JStr "AI engineer jobs Egypt"])]
                ["AI engineer jobs Egypt"]) as [Hv _]; [reflexivity| |exact Hv].
    unfold NUM_QUERIES. simpl. lia.
Defined.

(** Nineteen results, each a valid [SingleSearchResult], are rejected. *)
Lemma search_results_minimum_witness :
  forallb (fun x => is_valid (validate strict_int SingleSearchResult x))
    (replicate 19 one_result) = true
  /\ is_valid (validate strict_int AllSearchResults
                 (JDict [("results", JList (replicate 19 one_result))])) = false.
Proof.
  split; [reflexivity|].
  apply (search_results_minimum strict_int _ (replicate 19 one_result)); [reflexivity|].
  simpl. lia.
Defined.

(** [one_job] without its [page_url] is rejected; [one_job], which has no
    [salary], is accepted. *)
Lemma extracted_job_required_fields_witness :
  is_valid (validate strict_int SingleExtractedJob (JDict (tail one_job))) = false
  /\ exists attrs,
       validate strict_int SingleExtractedJob (JDict one_job)
       = Valid (VModel "SingleExtractedJob" attrs)
       /\ ("salary", VNone) ∈ attrs.
Proof.
  destruct (extracted_job_required_fields strict_int) as (_ & _ & Hrej & Hacc). split.
  - apply (Hrej _ "page_url"); [|reflexivity]. apply list_elem_of_here.
  - destruct (Hacc one_job eq_refl) as (attrs & Hv & _ & Hs).
    + intros f Hf Hreq. simpl in Hf. split_mem Hf; try done; subst f;
        try discriminate Hreq; (eexists; split; [reflexivity|reflexivity]).
    + by exists attrs.
Defined.

(** The instance of [one_query] dumps and validates back to itself. *)
Lemma suggested_queries_round_trip_witness :
  validate strict_int SuggestedSearchQueries one_query
  = Valid (VModel "SuggestedSearchQueries" [("queries", VList [VStr "AI engineer jobs Egypt"])])
  /\ validate strict_int SuggestedSearchQueries
       (model_dump (VModel "SuggestedSearchQueries"
                      [("queries", VList [VStr "AI engineer jobs Egypt"])]))
     = Valid (VModel "SuggestedSearchQueries" [("queries", VList [VStr "AI engineer jobs Egypt"])]).
Proof.
  split; [reflexivity|].
  apply (proj1 (suggested_queries_round_trip strict_int) one_query). reflexivity.
Defined.


(** The run in which the search provider raises once: the provider answers
    the same query in the world that the failed call left, yet the run ends
    at stage 2 with what the provider raised, and the files of stages 2, 3
    and 4 are not there. *)
Lemma search_failure_fails_the_run_witness :
  search_transient "AI engineer jobs Egypt" 2 = (inl (Exception "rate limited"), 3%nat)
  /\ (exists payload, search_transient "AI engineer jobs Egypt" 3 = (inr payload, 4%nat))
  /\ state failed_run = FAILED 2 (CollaboratorError (Exception "rate limited"))
  /\ world failed_run = 3%nat
  /\ (forall n p a, (2 <= n)%nat -> Written n p a ∉ log failed_run)
  /\ (forall n req, (2 < n)%nat -> Invoked n req ∉ log failed_run)
  /\ files failed_run !! "./ai-agent-output/step_2_job_search_results.json" = None
  /\ files failed_run !! "./ai-agent-output/step_3_extracted_jobs.json" = None
  /\ files failed_run !! "./ai-agent-output/step_4_recruitment_report.html" = None.
Proof.
  destruct (search_failure_fails_the_run strict_int nat search_transient scrape_up
              plain_schema (scripted_llm one_query)) as (_ & Hrun & _).
  destruct (Hrun main_inputs ∅ 0%nat
              (UseTool "search_engine_tool" "AI engineer jobs Egypt"
                 (fun _ => FinalAnswer (JDict [("results", JList (replicate 20 one_result))])))
              2%nat "search_engine_tool" "AI engineer jobs Egypt" 2%nat
              (Exception "rate limited") 3%nat)
    as (Hst & Hworld & _ & _ & _ & Hw & Hi & H2 & H3 & H4).
  - reflexivity.
  - reflexivity.
  - apply list_elem_of_here.
  - reflexivity.
  - split; [reflexivity|]. split; [by eexists|]. split; [exact Hst|].
    split; [exact Hworld|]. split; [exact Hw|]. split; [exact Hi|].
    split; [exact H2|]. split; [exact H3|exact H4].
Defined.

(** Two runs that complete leave the same files, the second run's. *)
Lemma rerun_overwrites_the_same_files_witness :
  state good_run = COMPLETED
  /\ state good_rerun = COMPLETED
  /\ dom (files good_rerun) = dom (files good_run)
  /\ files good_rerun !! "./ai-agent-output/step_3_extracted_jobs.json" = Some no_job.
Proof.
  destruct (rerun_overwrites_the_same_files strict_int nat search_up scrape_up
              plain_schema (scripted_llm one_query) main_inputs ∅ 0%nat)
    as (_ & _ & _ & Hboth).
  destruct (Hboth eq_refl eq_refl) as (_ & Hdom & Hfile).
  split; [reflexivity|]. split; [reflexivity|]. split; [exact Hdom|].
  destruct (Hfile 2%nat "./ai-agent-output/step_3_extracted_jobs.json" eq_refl)
    as [_ Hthird].
  exact (eq_trans Hthird eq_refl).
Defined.


(** The first stage of the run is invoked with the bundle of [__main__]. *)
Lemma main_parameter_bundle_witness :
  exists req, Invoked 1 req ∈ log good_run /\ req_inputs req = main_inputs.
Proof.
  destruct (main_parameter_bundle strict_int nat search_up scrape_up plain_schema
              (scripted_llm one_query)) as (_ & _ & _ & _ & Hsame).
  assert (Invoked 1 (request_of nat
                       (search_queries_recommendation_task nat (scripted_llm one_query))
                       main_inputs [])
            ∈ log good_run) as Hin.
  { find_event. }
  eexists. split; [exact Hin|]. exact (Hsame ∅ 0%nat _ _ Hin).
Defined.

(** C8, as the specification words it, fails on [__main__]: the job titles
    it passes are one string, not a sequence of strings. *)
Lemma main_titles_are_one_string :
  dict_get "jobs_titles" main_inputs = Some (JStr "AI/ML Engineer")
  /\ holds is_str_list "jobs_titles" main_inputs = false
  /\ bundle_as_specified NUM_QUERIES main_inputs = false.
Proof. repeat split. Qed.

(** * More examples on the scripted world *)

Lemma strict_int_exact : forall z, strict_int (JInt z) = Some z.
Proof. reflexivity. Qed.

(** [one_result] is accepted, as the four strings it holds. *)
Lemma search_result_accepted_iff_witness :
  validate strict_int SingleSearchResult one_result
  = Valid (VModel "SingleSearchResult"
             [ ("title", VStr "AI Engineer"); ("url", VStr "https://jobs.example/1");
               ("content", VStr "Cairo");
               ("search_query", VStr "AI engineer jobs Egypt") ]).
Proof.
  apply (proj2 (search_result_accepted_iff strict_int one_result _)).
  eexists _, _, _, _, _. repeat split; reflexivity.
Defined.

(** A specification of two strings is accepted. *)
Lemma job_spec_accepted_iff_witness :
  validate strict_int JobSpec
    (JDict [("specification_name", JStr "seniority");
            ("specification_value", JStr "senior")])
  = Valid (VModel "JobSpec"
             [("specification_name", VStr "seniority");
              ("specification_value", VStr "senior")]).
Proof.
  apply (proj2 (job_spec_accepted_iff strict_int _ _)).
  eexists _, _, _. repeat split; reflexivity.
Defined.

(** Twenty-five results are accepted: there is no upper bound. *)
Lemma all_search_results_accepted_iff_witness :
  is_valid (validate strict_int AllSearchResults
              (JDict [("results", JList (replicate 25 one_result))])) = true.
Proof.
  assert (exists v, validate strict_int AllSearchResults
                      (JDict [("results", JList (replicate 25 one_result))]) = Valid v)
    as [v ->]; [|reflexivity].
  eexists. apply (proj2 (all_search_results_accepted_iff strict_int _ _)).
  eexists _, (replicate 25 one_result), _.
  split; [reflexivity|]. split; [reflexivity|]. split; [|split; [simpl; lia|reflexivity]].
  simpl. repeat (constructor; [reflexivity|]). constructor.
Defined.

(** A list of one job is accepted; the job has no salary. *)
Lemma all_extracted_jobs_accepted_iff_witness :
  is_valid (validate strict_int AllExtractedJobs
              (JDict [("jobs", JList [JDict one_job])])) = true.
Proof.
  assert (exists v, validate strict_int AllExtractedJobs
                      (JDict [("jobs", JList [JDict one_job])]) = Valid v)
    as [v ->]; [|reflexivity].
  eexists. apply (proj2 (all_extracted_jobs_accepted_iff strict_int _ _)).
  eexists _, [JDict one_job], _.
  split; [reflexivity|]. split; [reflexivity|]. split; [|reflexivity].
  constructor; [reflexivity|constructor].
Defined.

(** What the model accepted of [one_query] is a list of one string. *)
Lemma suggested_queries_accepted_iff_witness :
  exists members qs,
    one_query = JDict members
    /\ dict_get "queries" members = Some (JList (map JStr qs))
    /\ (1 <= length qs <= NUM_QUERIES)%nat.
Proof.
  destruct (proj1 (suggested_queries_accepted_iff strict_int one_query _) eq_refl)
    as (members & qs & Hraw & Hget & Hlen & _).
  by exists members, qs.
Defined.

(** [one_job] is accepted, with [None] for the salary it lacks. *)
Lemma extracted_job_accepted_iff_witness :
  exists attrs,
    validate strict_int SingleExtractedJob (JDict one_job)
    = Valid (VModel "SingleExtractedJob" attrs)
    /\ attrs !! 6%nat = Some ("salary", VNone).
Proof.
  eexists. split.
  - apply (proj2 (extracted_job_accepted_iff strict_int _ _)).
    eexists one_job, _, _, _, _, _, _, VNone, _, _, _, 1%Z, ["matches the title"].
    repeat split; try reflexivity.
    + left. split; reflexivity.
    + constructor; [reflexivity|constructor].
  - reflexivity.
Defined.

(** Twenty results: the instance the model gives for them dumps to a dict
    that the model takes back to the same instance. *)
Lemma search_results_round_trip_witness :
  exists v,
    validate strict_int AllSearchResults
      (JDict [("results", JList (replicate 20 one_result))]) = Valid v
    /\ validate strict_int AllSearchResults (model_dump v) = Valid v.
Proof.
  destruct (search_results_round_trip strict_int strict_int_exact) as (_ & _ & Hrt & _).
  assert (exists v, validate strict_int AllSearchResults
                      (JDict [("results", JList (replicate 20 one_result))]) = Valid v)
    as [v Hv] by (eexists; reflexivity).
  exists v. split; [exact Hv|exact (Hrt _ v Hv)].
Defined.

(** [one_job], accepted without a salary, does not validate again once
    dumped; with a salary it does. *)
Lemma extracted_job_round_trip_needs_salary_witness :
  has_key "salary" (JDict one_job) = false
  /\ (forall v, validate strict_int SingleExtractedJob (JDict one_job) = Valid v ->
                is_valid (validate strict_int SingleExtractedJob (model_dump v)) = false)
  /\ (forall v, validate strict_int SingleExtractedJob
                  (JDict (("salary", JStr "negotiable") :: one_job)) = Valid v ->
                validate strict_int SingleExtractedJob (model_dump v) = Valid v).
Proof.
  destruct (extracted_job_round_trip_needs_salary strict_int strict_int_exact)
    as [Hjob _].
  split; [reflexivity|]. split; intros v Hv.
  - by apply (proj2 (Hjob _ v Hv)).
  - by apply (proj1 (Hjob _ v Hv)).
Defined.

(** A key that names no field is dropped from what is kept. *)
Lemma artifact_keeps_declared_fields_witness :
  to_json strict_int SuggestedSearchQueries
    (JDict [("note", JStr "draft"); ("queries", JList [JStr "AI engineer jobs Egypt"])])
  = Valid one_query
  /\ exists queries, one_query = JDict [("queries", queries)].
Proof.
  split; [reflexivity|].
  destruct (artifact_keeps_declared_fields strict_int) as (_ & Hq & _).
  apply (Hq (JDict [("note", JStr "draft");
                    ("queries", JList [JStr "AI engineer jobs Egypt"])])).
  reflexivity.
Defined.
